(** * od_dbUpdater: the [/sync-record] webhook of [app.py]

    A shallow embedding of the three functions of [app.py]
    ([fetch_salesforce_data], [update_postgres_record] and
    [sync_record_endpoint], with [get_db_connection]) and the properties
    the specification states about them.

    The program talks to two services. Both are kept outside the embedding,
    in a record [env] of answers: what the Salesforce login and query return
    or raise, which driver call of psycopg2 fails, how the server compares
    the [od_id] column with a bound parameter, and the server's clock. The
    calls the program issues are recorded, in order, in a trace; the table
    [od_data] is a list of rows. Exceptions are values of a small
    state-and-error monad. Calls to [app.logger] are left out: they build
    strings and have no other effect. *)

From Stdlib Require Import ZArith Ascii String List Floats.
From stdpp Require Import gmap strings list fin_maps pretty.

Local Set Warnings "-register-all".

(** ** Python values *)

Module Py.

(** What [json.loads] and simple_salesforce hand to the program: [None],
    booleans, integers, floats, strings, lists and dictionaries keyed by
    strings. *)
Inductive pyval : Type :=
| PNone
| PBool (b : bool)
| PInt (z : Z)
| PFloat (f : float)
| PStr (s : string)
| PList (l : list pyval)
| PDict (d : gmap string pyval).

(** [bool(v)], the test behind [if v] and [not v]. *)
Definition truthy (v : pyval) : bool :=
  match v with
  | PNone => false
  | PBool b => b
  | PInt z => negb (z =? 0)%Z
  | PFloat f => negb (PrimFloat.eqb f 0%float)
  | PStr s => negb (String.eqb s "")
  | PList l => match l with [] => false | _ :: _ => true end
  | PDict d => negb (Nat.eqb (size d) 0)
  end.

(** [type(v).__name__] *)
Definition type_name (v : pyval) : string :=
  match v with
  | PNone => "NoneType"
  | PBool _ => "bool"
  | PInt _ => "int"
  | PFloat _ => "float"
  | PStr _ => "str"
  | PList _ => "list"
  | PDict _ => "dict"
  end.

(** Exception classes the program names or can meet. [Psycopg2Error] stands
    for [psycopg2.Error] and its subclasses, [OtherException] for any other
    subclass of [Exception]. *)
Inductive exn_class : Type :=
| SalesforceAuthenticationFailed
| SalesforceResourceNotFound
| Psycopg2Error
| AttributeError
| IndexError
| BadRequest
| OtherException.

Record exn : Type := Exn { exn_cls : exn_class; exn_msg : string }.

Definition is_psycopg2_error (ex : exn) : bool :=
  match exn_cls ex with Psycopg2Error => true | _ => false end.

Definition is_auth_failed (ex : exn) : bool :=
  match exn_cls ex with SalesforceAuthenticationFailed => true | _ => false end.

Definition is_resource_not_found (ex : exn) : bool :=
  match exn_cls ex with SalesforceResourceNotFound => true | _ => false end.

Inductive result (A : Type) : Type :=
| Ok (a : A)
| Raise (ex : exn).
Arguments Ok {A} a.
Arguments Raise {A} ex.

(** [v.get] on something that is not a dictionary. *)
Definition no_attribute_get (v : pyval) : exn :=
  Exn AttributeError ("'" +:+ type_name v +:+ "' object has no attribute 'get'").

(** [v.get(key)]: the value, [None] when the key is missing. *)
Definition get (v : pyval) (key : string) : result pyval :=
  match v with
  | PDict d => Ok (default PNone (d !! key))
  | _ => Raise (no_attribute_get v)
  end.

(** [v.get(key, dflt)] *)
Definition get_or (v : pyval) (key : string) (dflt : pyval) : result pyval :=
  match v with
  | PDict d => Ok (default dflt (d !! key))
  | _ => Raise (no_attribute_get v)
  end.

(** A dictionary display [{k1: v1, ...}]. *)
Definition dict (kvs : list (string * pyval)) : pyval :=
  PDict (list_to_map kvs).

(** Sequencing of pure steps that may raise. *)
Definition and_then {A B} (r : result A) (k : A -> result B) : result B :=
  match r with
  | Ok a => k a
  | Raise ex => Raise ex
  end.

End Py.
Export Py.

(** ** State and exceptions *)

Module Exec.

(** A computation over a state [S] that returns or raises. *)
Definition M (S A : Type) : Type := S -> result A * S.

Definition ret {S A} (a : A) : M S A := fun s => (Ok a, s).

Definition raise {S A} (ex : exn) : M S A := fun s => (Raise ex, s).

Definition bind {S A B} (m : M S A) (k : A -> M S B) : M S B :=
  fun s =>
    match m s with
    | (Ok a, s') => k a s'
    | (Raise ex, s') => (Raise ex, s')
    end.

Definition gets {S A} (f : S -> A) : M S A := fun s => (Ok (f s), s).

Definition modify {S} (f : S -> S) : M S unit := fun s => (Ok tt, f s).

(** A pure step that may raise. *)
Definition lift_result {S A} (r : result A) : M S A := fun s => (r, s).

(** [try: m  except Exception as ex: h ex] *)
Definition try_except {S A} (m : M S A) (h : exn -> M S A) : M S A :=
  fun s =>
    match m s with
    | (Ok a, s') => (Ok a, s')
    | (Raise ex, s') => h ex s'
    end.

(** [try: m  finally: f]. The outcome of [m] stands unless [f] raises. *)
Definition try_finally {S A} (m : M S A) (f : M S unit) : M S A :=
  fun s =>
    let '(r, s') := m s in
    match f s' with
    | (Ok _, s'') => (r, s'')
    | (Raise ex, s'') => (Raise ex, s'')
    end.

(** Run [m], which also reads and writes the local variables [L] of a
    function body, from their initial values. *)
Definition with_locals {W L A} (init : L) (m : M (W * L) A) : M W A :=
  fun w => let '(r, (w', _)) := m (w, init) in (r, w').

(** A step on the outer state, inside a function body. *)
Definition outer {W L A} (m : M W A) : M (W * L) A :=
  fun '(w, l) => let '(r, w') := m w in (r, (w', l)).

Definition local {W L A} (f : L -> A) : M (W * L) A :=
  fun '(w, l) => (Ok (f l), (w, l)).

Definition assign {W L} (f : L -> L) : M (W * L) unit :=
  fun '(w, l) => (Ok tt, (w, f l)).

End Exec.
Export Exec.

Declare Scope exec_scope.
Delimit Scope exec_scope with exec.
Notation "x <- m ;; k" := (bind m (fun x => k))
  (at level 100, m at next level, right associativity) : exec_scope.
Notation "m ;;; k" := (bind m (fun _ => k))
  (at level 100, right associativity) : exec_scope.
Notation "x <~ r ;; k" := (and_then r (fun x => k))
  (at level 100, r at next level, right associativity) : exec_scope.
Local Open Scope exec_scope.

(** ** The two services *)

(** The ten values bound to the placeholders of the UPDATE, in order. *)
Definition params : Type :=
  (pyval * pyval * pyval * pyval * pyval *
   pyval * pyval * pyval * pyval * pyval)%type.

(** The calls the program issues to Salesforce and to the psycopg2 driver. *)
Inductive event : Type :=
| SfLogin
| SfQuery (soql : string)
| PgConnect
| PgCursor
| PgExecute (query : string) (values : params)
| PgCommit
| PgRollback
| PgClose.

Definition is_pg_event (ev : event) : bool :=
  match ev with
  | SfLogin | SfQuery _ => false
  | _ => true
  end.

(** What [sf.query] gives back: the [totalSize] and [records] entries of its
    result, or an exception. *)
Inductive sf_answer : Type :=
| SfResult (totalSize : Z) (records : list pyval)
| SfRaises (ex : exn).

(** A row of [od_data]: the key column, the nine columns the UPDATE sets and
    [updated_at]. Other columns are never read or written. *)
Module OdData.
Record row : Type := Row {
  od_id : pyval;
  job_id : pyval;
  candidate_id : pyval;
  account_id : pyval;
  resume_txt : pyval;
  firstname : pyval;
  screening_transcript_c : pyval;
  internal_interview_transcript_c : pyval;
  x1st_interview_transcript_c : pyval;
  x2nd_interview_transcript_c : pyval;
  updated_at : Z
}.

(** The nine columns the UPDATE sets from the record. *)
Definition mapped_columns (r : row) : list pyval :=
  [job_id r; candidate_id r; account_id r; resume_txt r; firstname r;
   screening_transcript_c r; internal_interview_transcript_c r;
   x1st_interview_transcript_c r; x2nd_interview_transcript_c r].
End OdData.
Export OdData (row, Row, mapped_columns).

(** Everything the program receives from outside its own text. A field of
    type [option exn] is [None] when the call goes through and [Some ex]
    when it raises [ex]. *)
Record env : Type := Env {
  (** [Salesforce(username=..., ...)] *)
  sf_login : option exn;
  (** [sf.query(soql)] *)
  sf_query : string -> sf_answer;
  (** [psycopg2.connect(...)] *)
  pg_connect : option exn;
  (** [conn.cursor()] *)
  pg_cursor : option exn;
  (** [cur.execute(query, values)] *)
  pg_execute : string -> params -> option exn;
  (** [conn.commit()] *)
  pg_commit : option exn;
  (** the server's [od_id = %s]: column value, then bound value *)
  pg_equal : pyval -> pyval -> bool;
  (** the server's [CURRENT_TIMESTAMP] *)
  pg_now : Z;
  (** [str(v)] for a float, a list or a dictionary *)
  py_repr : pyval -> string
}.

(** The table as committed, the table as the open transaction sees it when
    it has written, the number of connections to the server that are open,
    and the calls issued so far, oldest first. *)
Record world : Type := World {
  od_data : list row;
  uncommitted : option (list row);
  open_connections : nat;
  trace : list event
}.

Definition emit (ev : event) : M world unit :=
  modify (fun w =>
    World (od_data w) (uncommitted w) (open_connections w) (trace w ++ [ev])).

Definition may_raise (fault : option exn) : M world unit :=
  match fault with
  | None => ret tt
  | Some ex => raise ex
  end.

(** [str(v)], as the f-strings of the program apply it. *)
Definition py_str (e : env) (v : pyval) : string :=
  match v with
  | PNone => "None"
  | PBool true => "True"
  | PBool false => "False"
  | PInt z => pretty z
  | PStr s => s
  | _ => py_repr e v
  end.

(** ** [app.py] *)

Definition nl : string := String "010" "".

(** The text of [soql_query] before and after the interpolated ID
    (lines 62-76). The line of the third transcript field ends in twelve
    spaces. *)
Definition soql_head : string :=
  String.concat nl
    [ "";
      "        SELECT";
      "            Id,";
      "            TR1__Job__r.Id,";
      "            TR1__Candidate__r.Id,";
      "            TR1__Candidate__r.AccountId,";
      "            TR1__Candidate__r.Candidate_s_Resume_TXT__c,";
      "            TR1__Candidate__r.FirstName,";
      "            Screening_Transcript__c,";
      "            Internal_Interview_Transcript__c,";
      "            X1st_Interview_Transcript__c            ";
      "        FROM";
      "            TR1__Opportunity_Discussed__c";
      "        WHERE Id = '" ].

Definition soql_tail : string :=
  String.concat nl [ "'"; "    " ].

(** The f-string of lines 62-76, at the text of the ID. *)
Definition soql_query (sf_opportunity_discussed_id : string) : string :=
  soql_head +:+ sf_opportunity_discussed_id +:+ soql_tail.

(** Lines 119-132. *)
Definition update_query : string :=
  String.concat nl
    [ "";
      "        UPDATE od_data SET";
      "            job_id = %s,";
      "            candidate_id = %s,";
      "            account_id = %s,";
      "            resume_txt = %s,";
      "            firstname = %s,";
      "            screening_transcript_c = %s,";
      "            internal_interview_transcript_c = %s,";
      "            x1st_interview_transcript_c = %s,";
      "            x2nd_interview_transcript_c = %s,";
      "            updated_at = CURRENT_TIMESTAMP";
      "        WHERE od_id = %s ";
      "    " ].

(** The handle [psycopg2.connect] returns. It is always true as a condition. *)
Inductive connection : Type := Connection.

(** Lines 26-38. The [except] clause logs and raises the same exception. *)
Definition get_db_connection (e : env) : M world connection :=
  try_except
    (emit PgConnect ;;;
     may_raise (pg_connect e) ;;;
     modify (fun w =>
       World (od_data w) (uncommitted w) (S (open_connections w)) (trace w)) ;;;
     ret Connection)
    (fun ex => raise ex).

(** Lines 41-95. Both [except] clauses around the login log and raise the
    same exception. *)
Definition fetch_salesforce_data (e : env) (sf_opportunity_discussed_id : pyval)
  : M world pyval :=
  try_except
    (emit SfLogin ;;;
     may_raise (sf_login e))
    (fun ex => raise ex) ;;;
  let soql_query := soql_query (py_str e sf_opportunity_discussed_id) in
  try_except
    (emit (SfQuery soql_query) ;;;
     match sf_query e soql_query with
     | SfRaises ex => raise ex
     | SfResult totalSize records =>
         if (totalSize >? 0)%Z then
           match records with
           | record :: _ => ret record
           | [] => raise (Exn IndexError "list index out of range")
           end
         else ret PNone
     end)
    (fun ex =>
       if is_resource_not_found ex then ret PNone
       else raise ex).

(** [sf_data.get(relation, {}).get(field) if sf_data.get(relation) else None]
    (lines 105-109). *)
Definition related (sf_data : pyval) (relation field : string) : result pyval :=
  present <~ get sf_data relation ;;
  if truthy present then
    (r <~ get_or sf_data relation (dict []) ;;
     get r field)
  else Ok PNone.

(** Lines 105-146: the record mapper. *)
Definition values_to_update (salesforce_opp_discussed_id sf_data : pyval)
  : result params :=
  job_id <~ related sf_data "TR1__Job__r" "Id" ;;
  candidate_id <~ related sf_data "TR1__Candidate__r" "Id" ;;
  account_id <~ related sf_data "TR1__Candidate__r" "AccountId" ;;
  resume_txt <~ related sf_data "TR1__Candidate__r" "Candidate_s_Resume_TXT__c" ;;
  firstname <~ related sf_data "TR1__Candidate__r" "FirstName" ;;
  screening_transcript_c <~ get sf_data "screening_transcript_c" ;;
  internal_interview_transcript_c <~ get sf_data "internal_interview_transcript_c" ;;
  x1st_interview_transcript_c <~ get sf_data "x1st_interview_transcript_c" ;;
  x2nd_interview_transcript_c <~ get sf_data "x2nd_interview_transcript_c" ;;
  Ok (job_id, candidate_id, account_id, resume_txt, firstname,
      screening_transcript_c, internal_interview_transcript_c,
      x1st_interview_transcript_c, x2nd_interview_transcript_c,
      salesforce_opp_discussed_id).

(** *** The UPDATE on the server *)

(** The SET clause on one row. *)
Definition set_columns (now : Z) (values : params) (r : row) : row :=
  let '(job_id, candidate_id, account_id, resume_txt, firstname,
        screening_transcript_c, internal_interview_transcript_c,
        x1st_interview_transcript_c, x2nd_interview_transcript_c, _) := values in
  Row (OdData.od_id r) job_id candidate_id account_id resume_txt firstname
      screening_transcript_c internal_interview_transcript_c
      x1st_interview_transcript_c x2nd_interview_transcript_c now.

(** The value bound to the WHERE clause. *)
Definition where_value (values : params) : pyval := snd values.

(** The WHERE clause on one row. *)
Definition selected (e : env) (values : params) (r : row) : bool :=
  pg_equal e (OdData.od_id r) (where_value values).

(** The statement of [update_query] on a table, and [cur.rowcount]. *)
Definition run_update (e : env) (values : params) (table : list row) : list row :=
  map (fun r => if selected e values r then set_columns (pg_now e) values r else r)
      table.

Definition rowcount (e : env) (values : params) (table : list row) : Z :=
  Z.of_nat (length (filter (fun r => selected e values r = true) table)).

(** The table the open transaction sees. *)
Definition visible (w : world) : list row :=
  default (od_data w) (uncommitted w).

(** [conn.cursor()] *)
Definition conn_cursor (e : env) : M world unit :=
  emit PgCursor ;;;
  may_raise (pg_cursor e).

(** [cur.execute(query, values)], returning [cur.rowcount]. *)
Definition cur_execute (e : env) (query : string) (values : params) : M world Z :=
  emit (PgExecute query values) ;;;
  may_raise (pg_execute e query values) ;;;
  table <- gets visible ;;
  modify (fun w =>
    World (od_data w) (Some (run_update e values table))
          (open_connections w) (trace w)) ;;;
  ret (rowcount e values table).

(** [conn.commit()] *)
Definition conn_commit (e : env) : M world unit :=
  emit PgCommit ;;;
  may_raise (pg_commit e) ;;;
  modify (fun w => World (visible w) None (open_connections w) (trace w)).

(** [conn.rollback()] *)
Definition conn_rollback : M world unit :=
  emit PgRollback ;;;
  modify (fun w => World (od_data w) None (open_connections w) (trace w)).

(** [conn.close()]: what was not committed is lost. *)
Definition conn_close : M world unit :=
  emit PgClose ;;;
  modify (fun w =>
    World (od_data w) None (Nat.pred (open_connections w)) (trace w)).

(** The local variables of [update_postgres_record] that outlive the [try]
    block. *)
Record locals : Type := Locals {
  conn : option connection;
  updated_rows : Z
}.

(** Lines 98-166. *)
Definition update_postgres_record (e : env)
    (salesforce_opp_discussed_id sf_data : pyval) : M world Z :=
  values_to_update <- lift_result
    (values_to_update salesforce_opp_discussed_id sf_data) ;;
  with_locals (Locals None 0%Z)
    (try_finally
       (try_except
          (c <- outer (get_db_connection e) ;;
           assign (fun l => Locals (Some c) (updated_rows l)) ;;;
           outer (conn_cursor e) ;;;
           n <- outer (cur_execute e update_query values_to_update) ;;
           assign (fun l => Locals (conn l) n) ;;;
           outer (conn_commit e))
          (fun ex =>
             if is_psycopg2_error ex then
               (c <- local conn ;;
                match c with
                | Some _ => outer conn_rollback
                | None => ret tt
                end) ;;;
               raise ex
             else raise ex))
       (c <- local conn ;;
        match c with
        | Some _ => outer conn_close
        | None => ret tt
        end) ;;;
     local updated_rows).

(** The request as Flask presents it: whether the content type says JSON,
    and the parsed body, [None] when the body does not parse. *)
Record request : Type := Request {
  is_json : bool;
  json : option pyval
}.

(** [request.get_json()] *)
Definition get_json (req : request) : M world pyval :=
  match json req with
  | Some data => ret data
  | None => raise (Exn BadRequest "Failed to decode JSON object")
  end.

(** What a view returns: [jsonify(body), status]. *)
Definition response : Type := (pyval * Z)%type.

Definition jsonify (kvs : list (string * pyval)) : pyval := dict kvs.

(** Lines 169-215. *)
Definition sync_record_endpoint (e : env) (req : request) : M world response :=
  if negb (is_json req) then
    ret (jsonify [("error", PStr "Request must be JSON")], 400%Z)
  else
    data <- get_json req ;;
    salesforce_opp_discussed_id <- lift_result (get data "od_id") ;;
    if negb (truthy salesforce_opp_discussed_id) then
      ret (jsonify [("error", PStr "Missing 'od_id' in request body")], 400%Z)
    else
      let id := py_str e salesforce_opp_discussed_id in
      try_except
        (sf_record_data <- fetch_salesforce_data e salesforce_opp_discussed_id ;;
         if negb (truthy sf_record_data) then
           ret (jsonify
                  [("message", PStr ("No data found in Salesforce for ID " +:+ id))],
                404%Z)
         else
           updated_row_count <-
             update_postgres_record e salesforce_opp_discussed_id sf_record_data ;;
           if (updated_row_count >? 0)%Z then
             ret (jsonify
                    [("message",
                      PStr ("Successfully synchronized data for ID " +:+ id));
                     ("salesforce_data_retrieved", PBool true);
                     ("postgres_rows_updated", PInt updated_row_count)],
                  200%Z)
           else
             ret (jsonify
                    [("message",
                      PStr ("Data retrieved from Salesforce for ID " +:+ id +:+
                            ", but no matching record found in PostgreSQL to update."));
                     ("salesforce_data_retrieved", PBool true);
                     ("postgres_rows_updated", PInt 0)],
                  404%Z))
        (fun ex =>
           if is_auth_failed ex then
             ret (jsonify
                    [("error",
                      PStr "Salesforce authentication failed. Check credentials.")],
                  500%Z)
           else if is_psycopg2_error ex then
             ret (jsonify
                    [("error", PStr ("Database operation failed: " +:+ exn_msg ex))],
                  500%Z)
           else
             ret (jsonify
                    [("error",
                      PStr ("An unexpected error occurred: " +:+ exn_msg ex))],
                  500%Z)).

(** The status Flask sends for what the view returned or raised: the one
    returned, 400 for the [BadRequest] of [get_json], 500 for any other
    exception that leaves the view. *)
Definition http_status (r : result response) : Z :=
  match r with
  | Ok (_, status) => status
  | Raise ex =>
      match exn_cls ex with
      | BadRequest => 400%Z
      | _ => 500%Z
      end
  end.

(** ** Vocabulary of the properties *)

(** The world once [calls] have been issued and nothing else has changed. *)
Definition after (w : world) (calls : list event) : world :=
  World (od_data w) (uncommitted w) (open_connections w) (trace w ++ calls).

(** A POST whose content type is JSON and whose body parses to [body]. *)
Definition post (body : pyval) : request := Request true (Some body).

(** The three bodies the view builds once the ID is accepted. *)
Definition missing_od_id : response :=
  (jsonify [("error", PStr "Missing 'od_id' in request body")], 400%Z).

Definition no_data_found (e : env) (id : pyval) : response :=
  (jsonify
     [("message", PStr ("No data found in Salesforce for ID " +:+ py_str e id))],
   404%Z).

Definition synchronized (e : env) (id : pyval) (n : Z) : response :=
  (jsonify
     [("message", PStr ("Successfully synchronized data for ID " +:+ py_str e id));
      ("salesforce_data_retrieved", PBool true);
      ("postgres_rows_updated", PInt n)],
   200%Z).

Definition no_matching_record (e : env) (id : pyval) : response :=
  (jsonify
     [("message",
       PStr ("Data retrieved from Salesforce for ID " +:+ py_str e id +:+
             ", but no matching record found in PostgreSQL to update."));
      ("salesforce_data_retrieved", PBool true);
      ("postgres_rows_updated", PInt 0)],
   404%Z).

(** An entry of a JSON body. *)
Definition entry (body : pyval) (key : string) : option pyval :=
  match body with
  | PDict d => d !! key
  | _ => None
  end.

(** The query found nothing: no record counted, or the resource-not-found
    exception of simple_salesforce. *)
Definition nothing_found (a : sf_answer) : bool :=
  match a with
  | SfResult totalSize _ => (totalSize <=? 0)%Z
  | SfRaises ex => is_resource_not_found ex
  end.

(** What [fetch_salesforce_data] makes of the answer to its query. *)
Definition fetched (a : sf_answer) : result pyval :=
  match a with
  | SfRaises ex => if is_resource_not_found ex then Ok PNone else Raise ex
  | SfResult totalSize records =>
      if (totalSize >? 0)%Z then
        match records with
        | record :: _ => Ok record
        | [] => Raise (Exn IndexError "list index out of range")
        end
      else Ok PNone
  end.

(** A relation of the record is absent: the key is missing or holds [None]. *)
Definition absent (d : gmap string pyval) (relation : string) : Prop :=
  d !! relation = None \/ d !! relation = Some PNone.

(** The first driver call to fail once the connection is open, if any. *)
Definition fault_in_transaction (e : env) (values : params) : option exn :=
  match pg_cursor e with
  | Some ex => Some ex
  | None =>
      match pg_execute e update_query values with
      | Some ex => Some ex
      | None => pg_commit e
      end
  end.

(** The driver calls issued up to a failure inside the transaction, or up
    to the commit. *)
Definition attempted (e : env) (values : params) : list event :=
  PgConnect :: PgCursor ::
  match pg_cursor e with
  | Some _ => []
  | None =>
      PgExecute update_query values ::
      match pg_execute e update_query values with
      | Some _ => []
      | None => [PgCommit]
      end
  end.

(** The 500 response the view builds from an exception of the [try] block
    (lines 209-215). *)
Definition server_error (ex : exn) : response :=
  if is_auth_failed ex then
    (jsonify
       [("error", PStr "Salesforce authentication failed. Check credentials.")],
     500%Z)
  else if is_psycopg2_error ex then
    (jsonify [("error", PStr ("Database operation failed: " +:+ exn_msg ex))],
     500%Z)
  else
    (jsonify [("error", PStr ("An unexpected error occurred: " +:+ exn_msg ex))],
     500%Z).

(** The rows of a table that carry [id], as the server compares. *)
Definition carrying (e : env) (id : pyval) (table : list row) : list row :=
  filter (fun r => pg_equal e (OdData.od_id r) id = true) table.

(** *** Reading the text of the query *)

Definition is_separator (c : ascii) : bool :=
  (Ascii.eqb c " " || Ascii.eqb c "," || Ascii.eqb c "010")%bool.

(** The words of a text, split at spaces, commas and line ends; [word] is
    the word being read. *)
Fixpoint words_from (word text : string) : list string :=
  match text with
  | EmptyString => if String.eqb word "" then [] else [word]
  | String c rest =>
      if is_separator c then
        if String.eqb word "" then words_from "" rest
        else word :: words_from "" rest
      else words_from (word +:+ String c "") rest
  end.

Definition words (text : string) : list string := words_from "" text.

(** The words after the first [keyword]. *)
Fixpoint following (keyword : string) (ws : list string) : list string :=
  match ws with
  | [] => []
  | w :: rest => if String.eqb w keyword then rest else following keyword rest
  end.

(** The words before the first [keyword]. *)
Fixpoint preceding (keyword : string) (ws : list string) : list string :=
  match ws with
  | [] => []
  | w :: rest => if String.eqb w keyword then [] else w :: preceding keyword rest
  end.

(** The fields a query selects: the words between SELECT and FROM. *)
Definition select_list (query : string) : list string :=
  preceding "FROM" (following "SELECT" (words query)).

(** A field whose name says transcript, in either spelling of the T. *)
Definition is_transcript_field (field : string) : bool :=
  match String.index 0 "ranscript" field with
  | Some _ => true
  | None => false
  end.

(** The keys of a record as the query of [soql_query] names them:
    [attributes], which simple_salesforce adds, and the first component of
    each selected field. *)
Definition record_keys : gset string :=
  {[ "attributes"; "Id"; "TR1__Job__r"; "TR1__Candidate__r";
     "Screening_Transcript__c"; "Internal_Interview_Transcript__c";
     "X1st_Interview_Transcript__c" ]}.

(** The same services at another time of the server's clock. *)
Definition at_time (now : Z) (e : env) : env :=
  Env (sf_login e) (sf_query e) (pg_connect e) (pg_cursor e) (pg_execute e)
      (pg_commit e) (pg_equal e) now (py_repr e).

(** Idempotence as the specification words it: a request answered 200 is
    answered 200 again, both bodies report one row updated, and the nine
    mapped columns are the same after each call. *)
Definition one_row_both_times
    (e : env) (later : Z) (d : gmap string pyval) (w : world) : Prop :=
  forall body w1,
    sync_record_endpoint e (post (PDict d)) w = (Ok (body, 200%Z), w1) ->
    exists body' w2,
      sync_record_endpoint (at_time later e) (post (PDict d)) w1 =
        (Ok (body', 200%Z), w2) /\
      entry body "postgres_rows_updated" = Some (PInt 1) /\
      entry body' "postgres_rows_updated" = Some (PInt 1) /\
      map mapped_columns (od_data w2) = map mapped_columns (od_data w1).

(** *** Vocabulary of the further properties *)

(** The request passes the checks of lines 176-183: the content type says
    JSON, the body is an object, and its [od_id] is true as a condition. *)
Definition accepted (req : request) : bool :=
  is_json req &&
  match json req with
  | Some (PDict d) => truthy (default PNone (d !! "od_id"))
  | _ => false
  end.

(** A relation of a record that the mapper can read: false as a condition,
    or an object. *)
Definition readable (relation : pyval) : bool :=
  negb (truthy relation) ||
  match relation with
  | PDict _ => true
  | _ => false
  end.

(** What the mapper takes from a readable relation: the field of a
    non-empty object, null otherwise. *)
Definition field_of (relation : pyval) (field : string) : pyval :=
  match relation with
  | PDict r => if truthy relation then default PNone (r !! field) else PNone
  | _ => PNone
  end.

(** The nine values of the SET clause, in the order of the columns. *)
Definition set_values (values : params) : list pyval :=
  let '(job_id, candidate_id, account_id, resume_txt, firstname,
        screening_transcript_c, internal_interview_transcript_c,
        x1st_interview_transcript_c, x2nd_interview_transcript_c, _) := values in
  [job_id; candidate_id; account_id; resume_txt; firstname;
   screening_transcript_c; internal_interview_transcript_c;
   x1st_interview_transcript_c; x2nd_interview_transcript_c].

(** The call executes a statement. *)
Definition is_execute (ev : event) : bool :=
  match ev with
  | PgExecute _ _ => true
  | _ => false
  end.

(** The statuses the view returns. *)
Definition statuses : list Z := [200; 400; 404; 500]%Z.

(** ** A concrete setting

    Services that answer every query with [answer] and never fail, a server
    that compares strings, and the record of the specification's example. *)

Module Sample.

Definition string_equal (column value : pyval) : bool :=
  match column, value with
  | PStr a, PStr b => String.eqb a b
  | _, _ => false
  end.

Definition services (answer : sf_answer) : env :=
  Env None (fun _ => answer) None None (fun _ _ => None) None
      string_equal 1762214400 type_name.

Definition a0B1 : pyval := PStr "a0B1".

(** [{"od_id": "a0B1"}] *)
Definition body : gmap string pyval := {[ "od_id" := a0B1 ]}.

(** The upstream record of the example: the job relation is null, there is
    no candidate relation, and the screening transcript is "hello". *)
Definition fields : gmap string pyval :=
  list_to_map
    [("attributes", dict [("type", PStr "TR1__Opportunity_Discussed__c")]);
     ("Id", a0B1);
     ("TR1__Job__r", PNone);
     ("Screening_Transcript__c", PStr "hello")].

Definition record : pyval := PDict fields.

Definition found : sf_answer := SfResult 1 [record].

(** A local row that carries [id] and nothing else. *)
Definition blank (id : pyval) : row :=
  Row id PNone PNone PNone PNone PNone PNone PNone PNone PNone 0.

(** A table and no request served yet. *)
Definition start (table : list row) : world := World table None 0 [].

(** Two local rows that carry the same ID. *)
Definition twice : list row := [blank a0B1; blank a0B1].

(** Services whose [cur.execute] fails with a database error. *)
Definition failing_execute : env :=
  Env None (fun _ => found) None None
      (fun _ _ => Some (Exn Psycopg2Error "server closed the connection"))
      None string_equal 1762214400 type_name.

(** Services that refuse the login. *)
Definition rejected_login : env :=
  Env (Some (Exn SalesforceAuthenticationFailed "INVALID_LOGIN"))
      (fun _ => found) None None (fun _ _ => None) None
      string_equal 1762214400 type_name.

(** Services whose query raises. *)
Definition failing_query : env :=
  services (SfRaises (Exn OtherException "MALFORMED_QUERY")).

(** Services whose database refuses connections. *)
Definition no_database : env :=
  Env None (fun _ => found)
      (Some (Exn Psycopg2Error "could not connect to server")) None
      (fun _ _ => None) None string_equal 1762214400 type_name.

(** Services whose [cur.execute] raises something that is not a database
    error. *)
Definition interrupted_execute : env :=
  Env None (fun _ => found) None None
      (fun _ _ => Some (Exn OtherException "interrupted"))
      None string_equal 1762214400 type_name.

(** A record with both relations. *)
Definition job : gmap string pyval :=
  list_to_map [("attributes", dict []); ("Id", PStr "a0J7")].

Definition candidate : gmap string pyval :=
  list_to_map
    [("attributes", dict []); ("Id", PStr "0035"); ("AccountId", PStr "0019");
     ("Candidate_s_Resume_TXT__c", PStr "resume"); ("FirstName", PStr "Ada")].

Definition related_fields : gmap string pyval :=
  list_to_map
    [("attributes", dict [("type", PStr "TR1__Opportunity_Discussed__c")]);
     ("Id", a0B1);
     ("TR1__Job__r", PDict job);
     ("TR1__Candidate__r", PDict candidate);
     ("Screening_Transcript__c", PStr "hello")].

(** A record whose job relation is a string. *)
Definition unreadable_fields : gmap string pyval :=
  list_to_map [("Id", a0B1); ("TR1__Job__r", PStr "a0J7")].

End Sample.

(** ** The functions, case by case *)

Ltac exec_unfold :=
  cbv [bind ret raise try_except try_finally with_locals outer local assign
       gets modify lift_result emit may_raise and_then].

Lemma after_after (w : world) (xs ys : list event) :
  after (after w xs) ys = after w (xs ++ ys).
Proof. unfold after; simpl. by rewrite <- app_assoc. Qed.

Lemma fetch_salesforce_data_login_fails (e : env) (id : pyval) (w : world) (ex : exn) :
  sf_login e = Some ex ->
  fetch_salesforce_data e id w = (Raise ex, after w [SfLogin]).
Proof.
  intros H. unfold fetch_salesforce_data. exec_unfold. by rewrite H.
Qed.

Lemma fetch_salesforce_data_queries (e : env) (id : pyval) (w : world) :
  sf_login e = None ->
  fetch_salesforce_data e id w =
    (fetched (sf_query e (soql_query (py_str e id))),
     after w [SfLogin; SfQuery (soql_query (py_str e id))]).
Proof.
  intros H. unfold fetch_salesforce_data, fetched, after. exec_unfold.
  rewrite H; simpl. rewrite <- app_assoc; simpl.
  destruct (sf_query e _) as [n records | ex].
  - destruct (n >? 0)%Z; [destruct records|]; reflexivity.
  - destruct (is_resource_not_found ex) eqn:Hnf; simpl; by rewrite ?Hnf.
Qed.

Lemma update_postgres_record_mapper_raises
    (e : env) (id sf_data : pyval) (w : world) (ex : exn) :
  values_to_update id sf_data = Raise ex ->
  update_postgres_record e id sf_data w = (Raise ex, w).
Proof.
  intros H. unfold update_postgres_record. exec_unfold. by rewrite H.
Qed.

Lemma update_postgres_record_connect_fails
    (e : env) (id sf_data : pyval) (values : params) (w : world) (ex : exn) :
  values_to_update id sf_data = Ok values ->
  pg_connect e = Some ex ->
  update_postgres_record e id sf_data w = (Raise ex, after w [PgConnect]).
Proof.
  intros Hv Hc.
  unfold update_postgres_record, get_db_connection, after. exec_unfold.
  rewrite Hv, Hc; simpl.
  by destruct (is_psycopg2_error ex).
Qed.

Lemma update_postgres_record_fault
    (e : env) (id sf_data : pyval) (values : params) (w : world) (ex : exn) :
  values_to_update id sf_data = Ok values ->
  pg_connect e = None ->
  fault_in_transaction e values = Some ex ->
  update_postgres_record e id sf_data w =
    (Raise ex,
     World (od_data w) None (open_connections w)
           (trace w ++ attempted e values ++
            (if is_psycopg2_error ex then [PgRollback] else []) ++ [PgClose])).
Proof.
  intros Hv Hc Hf. destruct w as [table unc n tr].
  unfold update_postgres_record, get_db_connection, conn_cursor, cur_execute,
    conn_commit, conn_rollback, conn_close, fault_in_transaction, attempted in *.
  exec_unfold. rewrite Hv, Hc; simpl.
  destruct (pg_cursor e) as [ex1|]; simpl.
  { injection Hf as ->.
    destruct (is_psycopg2_error ex); simpl; by rewrite <- ?app_assoc. }
  destruct (pg_execute e update_query values) as [ex2|]; simpl.
  { injection Hf as ->.
    destruct (is_psycopg2_error ex); simpl; by rewrite <- ?app_assoc. }
  rewrite Hf; simpl.
  destruct (is_psycopg2_error ex); simpl; by rewrite <- ?app_assoc.
Qed.

Lemma update_postgres_record_commits
    (e : env) (id sf_data : pyval) (values : params) (w : world) :
  values_to_update id sf_data = Ok values ->
  pg_connect e = None ->
  fault_in_transaction e values = None ->
  update_postgres_record e id sf_data w =
    (Ok (rowcount e values (visible w)),
     World (run_update e values (visible w)) None (open_connections w)
           (trace w ++ [PgConnect; PgCursor; PgExecute update_query values;
                        PgCommit; PgClose])).
Proof.
  intros Hv Hc Hf. destruct w as [table unc n tr].
  unfold update_postgres_record, get_db_connection, conn_cursor, cur_execute,
    conn_commit, conn_close, fault_in_transaction in *.
  exec_unfold. rewrite Hv, Hc; simpl.
  destruct (pg_cursor e); [discriminate|]; simpl.
  destruct (pg_execute e update_query values); [discriminate|]; simpl.
  rewrite Hf; simpl. by rewrite <- ?app_assoc.
Qed.

Lemma sync_record_endpoint_rejects (e : env) (d : gmap string pyval) (w : world) :
  truthy (default PNone (d !! "od_id")) = false ->
  sync_record_endpoint e (post (PDict d)) w = (Ok missing_od_id, w).
Proof.
  intros H. unfold sync_record_endpoint, post, get_json, get; simpl.
  exec_unfold. by rewrite H.
Qed.

Lemma sync_record_endpoint_accepts
    (e : env) (d : gmap string pyval) (id : pyval) (w : world) :
  d !! "od_id" = Some id ->
  truthy id = true ->
  sync_record_endpoint e (post (PDict d)) w =
    match fetch_salesforce_data e id w with
    | (Raise ex, w1) => (Ok (server_error ex), w1)
    | (Ok sf_record_data, w1) =>
        if truthy sf_record_data then
          match update_postgres_record e id sf_record_data w1 with
          | (Raise ex, w2) => (Ok (server_error ex), w2)
          | (Ok n, w2) =>
              (Ok (if (n >? 0)%Z then synchronized e id n
                   else no_matching_record e id), w2)
          end
        else (Ok (no_data_found e id), w1)
    end.
Proof.
  intros Hd Ht. unfold sync_record_endpoint, post, get_json, get; simpl.
  exec_unfold. rewrite Hd; simpl. rewrite Ht; simpl.
  destruct (fetch_salesforce_data e id w) as [[sf_record_data | ex] w1].
  - destruct (truthy sf_record_data); simpl; [|reflexivity].
    destruct (update_postgres_record e id sf_record_data w1) as [[n | ex] w2].
    + by destruct (n >? 0)%Z.
    + unfold server_error.
      destruct (is_auth_failed ex); [reflexivity|].
      by destruct (is_psycopg2_error ex).
  - unfold server_error.
    destruct (is_auth_failed ex); [reflexivity|].
    by destruct (is_psycopg2_error ex).
Qed.

(** ** The claims *)

(** *** Validation of the request (C3, C10) *)

(** The path the view handles: a request whose JSON body is an object
    without the key [od_id] is answered 400, and the world is left as it
    was: no call to Salesforce or to the database driver is issued. When
    the content type says JSON the response is the missing-[od_id]
    error. *)
Theorem missing_od_id_returns_400
    (e : env) (req : request) (d : gmap string pyval) (w : world) :
  json req = Some (PDict d) ->
  d !! "od_id" = None ->
  http_status (fst (sync_record_endpoint e req w)) = 400%Z /\
  snd (sync_record_endpoint e req w) = w /\
  (is_json req = true -> fst (sync_record_endpoint e req w) = Ok missing_od_id).
Proof.
  intros Hj Hd. destruct req as [[|] body]; simpl in Hj; subst body.
  - change (Request true (Some (PDict d))) with (post (PDict d)).
    rewrite sync_record_endpoint_rejects; [done | by rewrite Hd].
  - done.
Qed.

Lemma missing_od_id_returns_400_witness :
  sync_record_endpoint (Sample.services Sample.found)
    (post (dict [("id", Sample.a0B1)])) (Sample.start [Sample.blank Sample.a0B1])
  = (Ok missing_od_id, Sample.start [Sample.blank Sample.a0B1]).
Proof.
  pose proof (missing_od_id_returns_400 (Sample.services Sample.found)
    (post (dict [("id", Sample.a0B1)])) (list_to_map [("id", Sample.a0B1)])
    (Sample.start [Sample.blank Sample.a0B1]) eq_refl eq_refl) as (_ & Hw & Hr).
  specialize (Hr eq_refl).
  destruct (sync_record_endpoint _ _ _) as [r w']; simpl in *. by subst.
Defined.

(** C3. At a request whose JSON body is the empty array, a body that has
    no [od_id] key, the view does not answer 400: [data.get] of line 180
    raises [AttributeError] before the [try] block, which Flask answers
    500. No call is issued. The body [null] goes the same way. *)
Theorem array_body_is_answered_500 (e : env) (w : world) :
  sync_record_endpoint e (post (PList [])) w =
    (Raise (Exn AttributeError "'list' object has no attribute 'get'"), w) /\
  http_status (fst (sync_record_endpoint e (post (PList [])) w)) = 500%Z /\
  http_status (fst (sync_record_endpoint e (post (PList [])) w)) <> 400%Z /\
  sync_record_endpoint e (post PNone) w =
    (Raise (Exn AttributeError "'NoneType' object has no attribute 'get'"), w).
Proof.
  assert (sync_record_endpoint e (post (PList [])) w =
          (Raise (Exn AttributeError "'list' object has no attribute 'get'"), w))
    as H by reflexivity.
  rewrite H. repeat split. discriminate.
Qed.

(** C10. When the key [od_id] is present and its value is false as a
    condition, the response is the missing-[od_id] error with status 400,
    the same as for a body without the key, and the world is left as it
    was. *)
Theorem falsy_od_id_returns_400
    (e : env) (d : gmap string pyval) (v : pyval) (w : world) :
  d !! "od_id" = Some v ->
  truthy v = false ->
  sync_record_endpoint e (post (PDict d)) w = (Ok missing_od_id, w) /\
  forall d' : gmap string pyval, d' !! "od_id" = None ->
    sync_record_endpoint e (post (PDict d')) w =
    sync_record_endpoint e (post (PDict d)) w.
Proof.
  intros Hd Hv.
  assert (sync_record_endpoint e (post (PDict d)) w = (Ok missing_od_id, w)) as H.
  { apply sync_record_endpoint_rejects. by rewrite Hd. }
  split; [exact H|]. intros d' Hd'. rewrite H.
  apply sync_record_endpoint_rejects. by rewrite Hd'.
Qed.

Lemma falsy_od_id_returns_400_witness :
  sync_record_endpoint (Sample.services Sample.found)
    (post (dict [("od_id", PStr "")])) (Sample.start [])
  = (Ok missing_od_id, Sample.start []).
Proof.
  exact (proj1 (falsy_od_id_returns_400 (Sample.services Sample.found)
    (list_to_map [("od_id", PStr "")]) (PStr "") (Sample.start [])
    eq_refl eq_refl)).
Defined.

(** The four values the claim lists are false as conditions; so are a
    zero float, an empty list and an empty object. *)
Lemma falsy_values :
  Forall (fun v => truthy v = false)
    [PStr ""; PNone; PInt 0; PBool false; PFloat 0; PList []; PDict ∅].
Proof. repeat constructor. Qed.

(** A JSON body that is not an object has no [get]: the view raises
    [AttributeError] before its [try] block, which Flask answers 500. *)
Lemma body_not_an_object (e : env) (data : pyval) (w : world) :
  (forall d, data <> PDict d) ->
  sync_record_endpoint e (post data) w = (Raise (no_attribute_get data), w).
Proof.
  intros H. unfold sync_record_endpoint, post, get_json, get; simpl. exec_unfold.
  destruct data; try reflexivity. by destruct (H d).
Qed.

(** *** Outcomes of an accepted request (C4, C5, C6) *)

(** C4. When the login goes through and the query for the ID counts no
    record, or raises the resource-not-found exception, the view answers
    404 with the no-data message. The only calls issued are the login and
    the query: no driver call is made, no connection is opened, and the
    table, committed or not, is as it was. *)
Theorem absent_upstream_returns_404
    (e : env) (d : gmap string pyval) (id : pyval) (w : world) :
  d !! "od_id" = Some id ->
  truthy id = true ->
  sf_login e = None ->
  nothing_found (sf_query e (soql_query (py_str e id))) = true ->
  exists calls,
    sync_record_endpoint e (post (PDict d)) w =
      (Ok (no_data_found e id), after w calls) /\
    snd (no_data_found e id) = 404%Z /\
    Forall (fun ev => is_pg_event ev = false) calls /\
    od_data (after w calls) = od_data w /\
    uncommitted (after w calls) = uncommitted w /\
    open_connections (after w calls) = open_connections w.
Proof.
  intros Hd Ht Hl Hn.
  exists [SfLogin; SfQuery (soql_query (py_str e id))].
  split; [|by repeat constructor].
  rewrite (sync_record_endpoint_accepts e d id w Hd Ht).
  rewrite (fetch_salesforce_data_queries e id w Hl).
  unfold nothing_found in Hn. unfold fetched.
  destruct (sf_query e _) as [n records | ex].
  - apply Z.leb_le in Hn.
    destruct (n >? 0)%Z eqn:Hgt; [apply Z.gtb_lt in Hgt; lia | reflexivity].
  - by rewrite Hn.
Qed.

Lemma absent_upstream_returns_404_witness :
  exists calls,
    sync_record_endpoint (Sample.services (SfResult 0 [])) (post (PDict Sample.body))
      (Sample.start [Sample.blank Sample.a0B1]) =
      (Ok (no_data_found (Sample.services (SfResult 0 [])) Sample.a0B1),
       after (Sample.start [Sample.blank Sample.a0B1]) calls) /\
    Forall (fun ev => is_pg_event ev = false) calls.
Proof.
  destruct (absent_upstream_returns_404 (Sample.services (SfResult 0 []))
    Sample.body Sample.a0B1 (Sample.start [Sample.blank Sample.a0B1])
    eq_refl eq_refl eq_refl eq_refl) as (calls & H & _ & Hpg & _).
  exists calls. split; assumption.
Defined.

(** C5. When the record is found upstream and the UPDATE matches no local
    row, the view answers 404 and the body carries
    [salesforce_data_retrieved: true] and [postgres_rows_updated: 0]. *)
Theorem absent_locally_returns_404
    (e : env) (d : gmap string pyval) (id sf_record_data : pyval)
    (w w1 w2 : world) :
  d !! "od_id" = Some id ->
  truthy id = true ->
  fetch_salesforce_data e id w = (Ok sf_record_data, w1) ->
  truthy sf_record_data = true ->
  update_postgres_record e id sf_record_data w1 = (Ok 0%Z, w2) ->
  exists body,
    sync_record_endpoint e (post (PDict d)) w = (Ok (body, 404%Z), w2) /\
    entry body "salesforce_data_retrieved" = Some (PBool true) /\
    entry body "postgres_rows_updated" = Some (PInt 0).
Proof.
  intros Hd Ht Hf Hr Hu.
  exists (fst (no_matching_record e id)).
  rewrite (sync_record_endpoint_accepts e d id w Hd Ht), Hf, Hr, Hu.
  by repeat split.
Qed.

Lemma absent_locally_returns_404_witness :
  exists body,
    sync_record_endpoint (Sample.services Sample.found) (post (PDict Sample.body))
      (Sample.start [Sample.blank (PStr "a0B2")]) =
      (Ok (body, 404%Z),
       snd (update_postgres_record (Sample.services Sample.found) Sample.a0B1
              Sample.record
              (snd (fetch_salesforce_data (Sample.services Sample.found)
                      Sample.a0B1 (Sample.start [Sample.blank (PStr "a0B2")]))))) /\
    entry body "salesforce_data_retrieved" = Some (PBool true) /\
    entry body "postgres_rows_updated" = Some (PInt 0).
Proof.
  apply (absent_locally_returns_404 (Sample.services Sample.found) Sample.body
    Sample.a0B1 Sample.record (Sample.start [Sample.blank (PStr "a0B2")])
    (snd (fetch_salesforce_data (Sample.services Sample.found) Sample.a0B1
            (Sample.start [Sample.blank (PStr "a0B2")]))));
    vm_compute; reflexivity.
Defined.

(** C6. When the record is found upstream and the UPDATE affects [n] rows
    with [n] at least 1, the view answers 200 and the body carries a
    message, [salesforce_data_retrieved: true] and
    [postgres_rows_updated: n]. *)
Theorem synchronized_returns_200
    (e : env) (d : gmap string pyval) (id sf_record_data : pyval) (n : Z)
    (w w1 w2 : world) :
  d !! "od_id" = Some id ->
  truthy id = true ->
  fetch_salesforce_data e id w = (Ok sf_record_data, w1) ->
  truthy sf_record_data = true ->
  update_postgres_record e id sf_record_data w1 = (Ok n, w2) ->
  (1 <= n)%Z ->
  exists body message,
    sync_record_endpoint e (post (PDict d)) w = (Ok (body, 200%Z), w2) /\
    entry body "message" = Some (PStr message) /\
    entry body "salesforce_data_retrieved" = Some (PBool true) /\
    entry body "postgres_rows_updated" = Some (PInt n).
Proof.
  intros Hd Ht Hf Hr Hu Hn.
  exists (fst (synchronized e id n)),
         ("Successfully synchronized data for ID " +:+ py_str e id).
  rewrite (sync_record_endpoint_accepts e d id w Hd Ht), Hf, Hr, Hu.
  destruct (n >? 0)%Z eqn:Hgt;
    [|rewrite Z.gtb_ltb in Hgt; apply Z.ltb_ge in Hgt; lia].
  by repeat split.
Qed.

Lemma synchronized_returns_200_witness :
  exists body message,
    sync_record_endpoint (Sample.services Sample.found) (post (PDict Sample.body))
      (Sample.start [Sample.blank Sample.a0B1]) =
      (Ok (body, 200%Z),
       snd (update_postgres_record (Sample.services Sample.found) Sample.a0B1
              Sample.record
              (snd (fetch_salesforce_data (Sample.services Sample.found)
                      Sample.a0B1 (Sample.start [Sample.blank Sample.a0B1]))))) /\
    entry body "message" = Some (PStr message) /\
    entry body "salesforce_data_retrieved" = Some (PBool true) /\
    entry body "postgres_rows_updated" = Some (PInt 1).
Proof.
  apply (synchronized_returns_200 (Sample.services Sample.found) Sample.body
    Sample.a0B1 Sample.record 1 (Sample.start [Sample.blank Sample.a0B1])
    (snd (fetch_salesforce_data (Sample.services Sample.found) Sample.a0B1
            (Sample.start [Sample.blank Sample.a0B1]))));
    vm_compute; (reflexivity || discriminate).
Defined.

(** *** The record mapper (C1, C2) *)

Lemma related_absent (d : gmap string pyval) (relation field : string) :
  absent d relation ->
  related (PDict d) relation field = Ok PNone.
Proof.
  intros [H | H]; unfold related, get; simpl; by rewrite H.
Qed.

(** C2. For a record whose job relation and candidate relation are absent,
    the mapper raises nothing and gives null in the five positions that
    depend on them; and once the connection and its cursor are obtained,
    the UPDATE is executed with these values. *)
Theorem absent_relations_map_to_null
    (e : env) (id : pyval) (d : gmap string pyval) (w : world) :
  absent d "TR1__Job__r" ->
  absent d "TR1__Candidate__r" ->
  exists values,
    values = (PNone, PNone, PNone, PNone, PNone,
              default PNone (d !! "screening_transcript_c"),
              default PNone (d !! "internal_interview_transcript_c"),
              default PNone (d !! "x1st_interview_transcript_c"),
              default PNone (d !! "x2nd_interview_transcript_c"),
              id) /\
    values_to_update id (PDict d) = Ok values /\
    (pg_connect e = None -> pg_cursor e = None ->
     PgExecute update_query values ∈
       trace (snd (update_postgres_record e id (PDict d) w))).
Proof.
  intros Hj Hc.
  set (values := (PNone, PNone, PNone, PNone, PNone,
                  default PNone (d !! "screening_transcript_c"),
                  default PNone (d !! "internal_interview_transcript_c"),
                  default PNone (d !! "x1st_interview_transcript_c"),
                  default PNone (d !! "x2nd_interview_transcript_c"), id)).
  assert (values_to_update id (PDict d) = Ok values) as Hv.
  { unfold values_to_update.
    rewrite (related_absent d "TR1__Job__r" "Id" Hj).
    by rewrite !(related_absent d "TR1__Candidate__r" _ Hc). }
  exists values. split; [reflexivity|]. split; [exact Hv|]. intros Hconn Hcur.
  destruct (fault_in_transaction e values) as [ex|] eqn:Hf.
  - rewrite (update_postgres_record_fault e id (PDict d) values w ex Hv Hconn Hf).
    simpl. unfold attempted. rewrite Hcur.
    apply elem_of_app; right. simpl. rewrite !elem_of_cons. auto.
  - rewrite (update_postgres_record_commits e id (PDict d) values w Hv Hconn Hf).
    simpl. apply elem_of_app; right. rewrite !elem_of_cons. auto.
Qed.

Lemma absent_relations_map_to_null_witness :
  exists values,
    values = (PNone, PNone, PNone, PNone, PNone,
              PNone, PNone, PNone, PNone, Sample.a0B1) /\
    values_to_update Sample.a0B1 Sample.record = Ok values /\
    PgExecute update_query values ∈
      trace (snd (update_postgres_record (Sample.services Sample.found)
                    Sample.a0B1 Sample.record (Sample.start []))).
Proof.
  destruct (absent_relations_map_to_null (Sample.services Sample.found)
    Sample.a0B1 Sample.fields (Sample.start [])
    (or_intror (eq_refl (Some PNone))) (or_introl (eq_refl None)))
    as (values & Hvalues & Hmap & Hexec).
  exists values. split; [exact Hvalues|]. split; [exact Hmap|].
  exact (Hexec eq_refl eq_refl).
Defined.

(** C1. At the example of the specification, body [{"od_id": "a0B1"}] and
    a record whose job relation is null, that has no candidate relation and
    whose [Screening_Transcript__c] is "hello", the mapper gives null in
    the sixth position, not "hello": it reads the key
    [screening_transcript_c], which the record does not have. This tuple
    is the one bound to the UPDATE. *)
Theorem example_tuple_has_null_transcript :
  Sample.fields !! "Screening_Transcript__c" = Some (PStr "hello") /\
  values_to_update Sample.a0B1 Sample.record =
    Ok (PNone, PNone, PNone, PNone, PNone,
        PNone, PNone, PNone, PNone, PStr "a0B1") /\
  values_to_update Sample.a0B1 Sample.record <>
    Ok (PNone, PNone, PNone, PNone, PNone,
        PStr "hello", PNone, PNone, PNone, PStr "a0B1") /\
  PgExecute update_query
    (PNone, PNone, PNone, PNone, PNone,
     PNone, PNone, PNone, PNone, PStr "a0B1") ∈
    trace (snd (sync_record_endpoint (Sample.services Sample.found)
                  (post (PDict Sample.body))
                  (Sample.start [Sample.blank Sample.a0B1]))).
Proof.
  split; [reflexivity|]. split; [reflexivity|].
  split; [vm_compute; discriminate|].
  match goal with
  | |- ?ev ∈ ?t => let calls := eval vm_compute in t in change (ev ∈ calls)
  end.
  rewrite !elem_of_cons. auto 10.
Qed.

(** For every record whose keys are spelled as the query spells them, the
    four transcript positions of the tuple are null. *)
Lemma transcripts_read_as_null
    (id : pyval) (d : gmap string pyval) (values : params) :
  dom d ⊆ record_keys ->
  values_to_update id (PDict d) = Ok values ->
  exists job_id candidate_id account_id resume_txt firstname,
    values = (job_id, candidate_id, account_id, resume_txt, firstname,
              PNone, PNone, PNone, PNone, id).
Proof.
  intros Hdom Hv.
  assert (forall key, bool_decide (key ∈ record_keys) = false -> d !! key = None)
    as Hnone.
  { intros key Hkey. apply not_elem_of_dom. intros Hin. apply Hdom in Hin.
    by apply bool_decide_eq_false in Hkey. }
  unfold values_to_update in Hv.
  destruct (related _ "TR1__Job__r" "Id") as [job_id|]; [|discriminate].
  destruct (related _ "TR1__Candidate__r" "Id") as [candidate_id|]; [|discriminate].
  destruct (related _ "TR1__Candidate__r" "AccountId") as [account_id|];
    [|discriminate].
  destruct (related _ "TR1__Candidate__r" "Candidate_s_Resume_TXT__c")
    as [resume_txt|]; [|discriminate].
  destruct (related _ "TR1__Candidate__r" "FirstName") as [firstname|];
    [|discriminate].
  simpl in Hv.
  rewrite !Hnone in Hv by (vm_compute; reflexivity).
  simpl in Hv. injection Hv as <-. by eexists _, _, _, _, _.
Qed.

(** *** The query (C7) *)

(** C7. Whatever the ID, the query selects nine fields, of which three are
    transcript fields: no second-interview transcript is selected. The
    text of the ID stands between the quotes of the WHERE clause as it
    is. *)
Theorem soql_query_selects_three_transcripts (id : string) :
  select_list (soql_query id) =
    ["Id"; "TR1__Job__r.Id"; "TR1__Candidate__r.Id";
     "TR1__Candidate__r.AccountId";
     "TR1__Candidate__r.Candidate_s_Resume_TXT__c";
     "TR1__Candidate__r.FirstName"; "Screening_Transcript__c";
     "Internal_Interview_Transcript__c"; "X1st_Interview_Transcript__c"] /\
  filter (fun field => is_transcript_field field = true)
         (select_list (soql_query id)) =
    ["Screening_Transcript__c"; "Internal_Interview_Transcript__c";
     "X1st_Interview_Transcript__c"] /\
  length (filter (fun field => is_transcript_field field = true)
                 (select_list (soql_query id))) <> 4 /\
  following "FROM" (words (soql_query "a0B1")) =
    ["TR1__Opportunity_Discussed__c"; "WHERE"; "Id"; "="; "'a0B1'"].
Proof.
  assert (select_list (soql_query id) =
    ["Id"; "TR1__Job__r.Id"; "TR1__Candidate__r.Id";
     "TR1__Candidate__r.AccountId";
     "TR1__Candidate__r.Candidate_s_Resume_TXT__c";
     "TR1__Candidate__r.FirstName"; "Screening_Transcript__c";
     "Internal_Interview_Transcript__c"; "X1st_Interview_Transcript__c"]) as H.
  { unfold select_list, words, soql_query. reflexivity. }
  rewrite H. repeat split; try reflexivity.
  vm_compute. discriminate.
Qed.

(** *** The updater's transaction and connection (C8) *)

(** C8. In every execution of the updater the number of open connections
    is on exit what it was on entry; when the connection was opened, the
    last call issued is its [close]. When a call inside the transaction
    raises a database error, the calls end in [rollback] then [close], the
    table is as committed before, nothing is left uncommitted, and the same
    exception is raised to the caller. When [connect] itself raises, no
    connection was opened and the same exception is raised. *)
Theorem database_error_rolls_back_and_connection_closes
    (e : env) (id sf_data : pyval) (w : world) :
  open_connections (snd (update_postgres_record e id sf_data w)) =
    open_connections w /\
  (forall values,
     values_to_update id sf_data = Ok values ->
     pg_connect e = None ->
     exists calls,
       trace (snd (update_postgres_record e id sf_data w)) =
         trace w ++ PgConnect :: calls ++ [PgClose] /\
       uncommitted (snd (update_postgres_record e id sf_data w)) = None) /\
  (forall values ex,
     values_to_update id sf_data = Ok values ->
     pg_connect e = None ->
     fault_in_transaction e values = Some ex ->
     is_psycopg2_error ex = true ->
     exists calls,
       update_postgres_record e id sf_data w =
         (Raise ex,
          World (od_data w) None (open_connections w)
                (trace w ++ calls ++ [PgRollback; PgClose]))) /\
  (forall values ex,
     values_to_update id sf_data = Ok values ->
     pg_connect e = Some ex ->
     update_postgres_record e id sf_data w = (Raise ex, after w [PgConnect])).
Proof.
  repeat split.
  - destruct (values_to_update id sf_data) as [values | ex] eqn:Hv.
    + destruct (pg_connect e) as [ex|] eqn:Hc.
      * by rewrite (update_postgres_record_connect_fails e id sf_data values w ex).
      * destruct (fault_in_transaction e values) as [ex|] eqn:Hf.
        -- by rewrite (update_postgres_record_fault e id sf_data values w ex).
        -- by rewrite (update_postgres_record_commits e id sf_data values w).
    + by rewrite (update_postgres_record_mapper_raises e id sf_data w ex).
  - intros values Hv Hc.
    destruct (fault_in_transaction e values) as [ex|] eqn:Hf.
    + rewrite (update_postgres_record_fault e id sf_data values w ex Hv Hc Hf).
      exists (tail (attempted e values) ++
              if is_psycopg2_error ex then [PgRollback] else []).
      split; [|reflexivity]. unfold attempted; simpl.
      by rewrite <- app_assoc.
    + rewrite (update_postgres_record_commits e id sf_data values w Hv Hc Hf).
      by exists [PgCursor; PgExecute update_query values; PgCommit].
  - intros values ex Hv Hc Hf Hdb.
    rewrite (update_postgres_record_fault e id sf_data values w ex Hv Hc Hf), Hdb.
    by exists (attempted e values).
  - intros values ex Hv Hc.
    by apply update_postgres_record_connect_fails with values.
Qed.

Lemma database_error_rolls_back_and_connection_closes_witness :
  exists calls,
    update_postgres_record Sample.failing_execute Sample.a0B1 Sample.record
      (Sample.start [Sample.blank Sample.a0B1]) =
      (Raise (Exn Psycopg2Error "server closed the connection"),
       World [Sample.blank Sample.a0B1] None 0 (calls ++ [PgRollback; PgClose])).
Proof.
  destruct (database_error_rolls_back_and_connection_closes
    Sample.failing_execute Sample.a0B1 Sample.record
    (Sample.start [Sample.blank Sample.a0B1])) as (_ & _ & Hdb & _).
  exact (Hdb (PNone, PNone, PNone, PNone, PNone,
              PNone, PNone, PNone, PNone, Sample.a0B1)
             (Exn Psycopg2Error "server closed the connection")
             eq_refl eq_refl eq_refl eq_refl).
Defined.

(** *** Repeating a request (C9) *)

Lemma selected_set_columns (e : env) (now : Z) (values : params) (r : row) :
  selected e values (set_columns now values r) = selected e values r.
Proof.
  destruct values as [[[[[[[[[? ?] ?] ?] ?] ?] ?] ?] ?] ?]. reflexivity.
Qed.

Lemma mapped_columns_set_columns (now now' : Z) (values : params) (r : row) :
  mapped_columns (set_columns now' values (set_columns now values r)) =
  mapped_columns (set_columns now values r).
Proof.
  destruct values as [[[[[[[[[? ?] ?] ?] ?] ?] ?] ?] ?] ?]. reflexivity.
Qed.

Lemma run_update_cons (e : env) (values : params) (r : row) (table : list row) :
  run_update e values (r :: table) =
    (if selected e values r then set_columns (pg_now e) values r else r) ::
    run_update e values table.
Proof. reflexivity. Qed.

Lemma selected_at_time (e : env) (now : Z) (values : params) (r : row) :
  selected (at_time now e) values r = selected e values r.
Proof. reflexivity. Qed.

(** The UPDATE does not change which rows its WHERE clause selects. *)
Lemma rowcount_run_update (e : env) (now : Z) (values : params) (table : list row) :
  rowcount (at_time now e) values (run_update e values table) =
  rowcount e values table.
Proof.
  unfold rowcount. f_equal.
  induction table as [|r table IH]; [reflexivity|].
  rewrite run_update_cons, !filter_cons.
  destruct (selected e values r) eqn:Hsel.
  - rewrite selected_at_time, selected_set_columns, Hsel.
    destruct (decide (true = true)); [|done].
    cbn [length]. by rewrite IH.
  - rewrite selected_at_time, Hsel.
    destruct (decide (false = true)); [done|]. exact IH.
Qed.

(** Running the UPDATE again with the same values leaves the nine mapped
    columns of every row as the first run left them. *)
Lemma mapped_columns_run_update_again
    (e : env) (now : Z) (values : params) (table : list row) :
  map mapped_columns (run_update (at_time now e) values (run_update e values table)) =
  map mapped_columns (run_update e values table).
Proof.
  induction table as [|r table IH]; [reflexivity|].
  rewrite !run_update_cons, !map_cons, IH. f_equal.
  destruct (selected e values r) eqn:Hsel.
  - rewrite selected_at_time, selected_set_columns, Hsel.
    apply mapped_columns_set_columns.
  - by rewrite selected_at_time, Hsel.
Qed.

Lemma where_value_of_values_to_update (id sf_data : pyval) (values : params) :
  values_to_update id sf_data = Ok values -> where_value values = id.
Proof.
  unfold values_to_update. intros H.
  repeat match type of H with
  | and_then ?r _ = _ => destruct r; simpl in H; [|discriminate]
  end.
  by injection H as <-.
Qed.

Lemma visible_committed (table : list row) (n : nat) (calls : list event) :
  visible (World table None n calls) = table.
Proof. reflexivity. Qed.

Lemma py_str_at_time (e : env) (now : Z) (v : pyval) :
  py_str (at_time now e) v = py_str e v.
Proof. by destruct v. Qed.

Lemma server_error_status (ex : exn) : snd (server_error ex) = 500%Z.
Proof.
  unfold server_error.
  destruct (is_auth_failed ex); [reflexivity|].
  by destruct (is_psycopg2_error ex).
Qed.

(** The successful path of the view, forwards. *)
Lemma sync_record_endpoint_succeeds
    (e : env) (d : gmap string pyval) (id sf_record_data : pyval)
    (values : params) (w : world) :
  d !! "od_id" = Some id ->
  truthy id = true ->
  sf_login e = None ->
  fetched (sf_query e (soql_query (py_str e id))) = Ok sf_record_data ->
  truthy sf_record_data = true ->
  values_to_update id sf_record_data = Ok values ->
  pg_connect e = None ->
  fault_in_transaction e values = None ->
  sync_record_endpoint e (post (PDict d)) w =
    (Ok (if (rowcount e values (visible w) >? 0)%Z
         then synchronized e id (rowcount e values (visible w))
         else no_matching_record e id),
     World (run_update e values (visible w)) None (open_connections w)
           (trace w ++ [SfLogin; SfQuery (soql_query (py_str e id)); PgConnect;
                        PgCursor; PgExecute update_query values; PgCommit;
                        PgClose])).
Proof.
  intros Hd Ht Hl Hq Hr Hv Hc Hf.
  rewrite (sync_record_endpoint_accepts e d id w Hd Ht).
  rewrite (fetch_salesforce_data_queries e id w Hl), Hq, Hr.
  rewrite (update_postgres_record_commits e id sf_record_data values _ Hv Hc Hf).
  unfold after, visible; simpl. by rewrite <- app_assoc.
Qed.

(** The successful path of the view, backwards: a 200 response tells what
    the services answered. *)
Lemma sync_record_endpoint_200
    (e : env) (d : gmap string pyval) (id body : pyval) (w w1 : world) :
  d !! "od_id" = Some id ->
  sync_record_endpoint e (post (PDict d)) w = (Ok (body, 200%Z), w1) ->
  exists sf_record_data values,
    truthy id = true /\
    sf_login e = None /\
    fetched (sf_query e (soql_query (py_str e id))) = Ok sf_record_data /\
    truthy sf_record_data = true /\
    values_to_update id sf_record_data = Ok values /\
    pg_connect e = None /\
    fault_in_transaction e values = None /\
    (rowcount e values (visible w) >? 0)%Z = true.
Proof.
  intros Hd H.
  destruct (truthy id) eqn:Ht.
  2:{ rewrite sync_record_endpoint_rejects in H by (by rewrite Hd).
      unfold missing_od_id in H. congruence. }
  rewrite (sync_record_endpoint_accepts e d id w Hd Ht) in H.
  assert (forall ex w', (Ok (server_error ex), w') <> (Ok (body, 200%Z), w1))
    as Hno.
  { intros ex w' Heq. pose proof (server_error_status ex) as Hs.
    injection Heq as Heq _. rewrite Heq in Hs. discriminate. }
  destruct (sf_login e) as [ex|] eqn:Hl.
  { rewrite (fetch_salesforce_data_login_fails e id w ex Hl) in H.
    by apply Hno in H. }
  rewrite (fetch_salesforce_data_queries e id w Hl) in H.
  destruct (fetched _) as [sf_record_data | ex] eqn:Hq; [|by apply Hno in H].
  destruct (truthy sf_record_data) eqn:Hr;
    [|unfold no_data_found in H; congruence].
  destruct (values_to_update id sf_record_data) as [values | ex] eqn:Hv.
  2:{ rewrite (update_postgres_record_mapper_raises e id _ _ ex Hv) in H.
      by apply Hno in H. }
  destruct (pg_connect e) as [ex|] eqn:Hc.
  { rewrite (update_postgres_record_connect_fails e id _ values _ ex Hv Hc) in H.
    by apply Hno in H. }
  destruct (fault_in_transaction e values) as [ex|] eqn:Hf.
  { rewrite (update_postgres_record_fault e id _ values _ ex Hv Hc Hf) in H.
    by apply Hno in H. }
  rewrite (update_postgres_record_commits e id _ values _ Hv Hc Hf) in H.
  change (visible (after w _)) with (visible w) in H.
  destruct (rowcount e values (visible w) >? 0)%Z eqn:Hn;
    [|unfold no_matching_record in H; congruence].
  by exists sf_record_data, values.
Qed.

(** C9, as the code has it. When a request is answered 200 and the same
    request is served again, the services unchanged but for the clock, the
    second response is 200 with the same body: [postgres_rows_updated] is
    both times the number, at least 1, of rows that carry the ID, and is 1
    exactly when one row carries it. The nine mapped columns of every row
    are after the second call what they were after the first. *)
Theorem repeated_sync_repeats_count_and_columns
    (e : env) (later : Z) (d : gmap string pyval) (id body : pyval)
    (w w1 : world) :
  d !! "od_id" = Some id ->
  sync_record_endpoint e (post (PDict d)) w = (Ok (body, 200%Z), w1) ->
  exists n w2,
    (1 <= n)%Z /\
    n = Z.of_nat (length (carrying e id (visible w))) /\
    entry body "postgres_rows_updated" = Some (PInt n) /\
    sync_record_endpoint (at_time later e) (post (PDict d)) w1 =
      (Ok (body, 200%Z), w2) /\
    map mapped_columns (od_data w2) = map mapped_columns (od_data w1).
Proof.
  intros Hd H.
  destruct (sync_record_endpoint_200 e d id body w w1 Hd H)
    as (sf_record_data & values & Ht & Hl & Hq & Hr & Hv & Hc & Hf & Hn).
  rewrite (sync_record_endpoint_succeeds e d id sf_record_data values w
             Hd Ht Hl Hq Hr Hv Hc Hf), Hn in H.
  injection H as Hbody Hw1. subst w1.
  set (n := rowcount e values (visible w)) in *.
  exists n. eexists.
  split; [apply Z.gtb_lt in Hn; lia|].
  split.
  { unfold n, rowcount, carrying, selected.
    by rewrite (where_value_of_values_to_update id sf_record_data values Hv). }
  split; [by rewrite <- Hbody|].
  split.
  - rewrite (sync_record_endpoint_succeeds (at_time later e) d id sf_record_data
               values _ Hd Ht Hl);
      [|by rewrite py_str_at_time|exact Hr|exact Hv|exact Hc|exact Hf].
    rewrite !visible_committed, rowcount_run_update.
    fold n. rewrite Hn.
    unfold synchronized in *. rewrite py_str_at_time, Hbody. reflexivity.
  - cbn [od_data]. apply mapped_columns_run_update_again.
Qed.

Lemma repeated_sync_repeats_count_and_columns_witness :
  exists n w2,
    (1 <= n)%Z /\
    n = 1%Z /\
    sync_record_endpoint (at_time 1762214460 (Sample.services Sample.found))
      (post (PDict Sample.body))
      (snd (sync_record_endpoint (Sample.services Sample.found)
              (post (PDict Sample.body))
              (Sample.start [Sample.blank Sample.a0B1; Sample.blank (PStr "a0B2")])))
    = (Ok (synchronized (Sample.services Sample.found) Sample.a0B1 1), w2) /\
    map mapped_columns (od_data w2) =
      [[PNone; PNone; PNone; PNone; PNone; PNone; PNone; PNone; PNone];
       [PNone; PNone; PNone; PNone; PNone; PNone; PNone; PNone; PNone]].
Proof.
  destruct (repeated_sync_repeats_count_and_columns
    (Sample.services Sample.found) 1762214460 Sample.body Sample.a0B1
    (fst (synchronized (Sample.services Sample.found) Sample.a0B1 1))
    (Sample.start [Sample.blank Sample.a0B1; Sample.blank (PStr "a0B2")])
    (snd (sync_record_endpoint (Sample.services Sample.found)
            (post (PDict Sample.body))
            (Sample.start [Sample.blank Sample.a0B1; Sample.blank (PStr "a0B2")])))
    eq_refl ltac:(vm_compute; reflexivity))
    as (n & w2 & Hn & Hcount & _ & Hsecond & Hcolumns).
  exists n, w2. repeat split; [exact Hn | exact Hcount | exact Hsecond |].
  rewrite Hcolumns. vm_compute. reflexivity.
Defined.

(** C9, as the claim states it, fails: with two local rows that carry the
    ID, the first call is answered 200 and reports two rows updated, not
    one. *)
Lemma repeated_sync_of_two_rows_reports_two :
  ~ one_row_both_times (Sample.services Sample.found) 1762214460 Sample.body
      (Sample.start Sample.twice).
Proof.
  intros H.
  destruct (H (fst (synchronized (Sample.services Sample.found) Sample.a0B1 2))
              (snd (sync_record_endpoint (Sample.services Sample.found)
                      (post (PDict Sample.body)) (Sample.start Sample.twice))))
    as (body' & w2 & _ & Hone & _).
  - vm_compute. reflexivity.
  - vm_compute in Hone. discriminate Hone.
Qed.

(** ** Further properties of the code *)

(** *** What every request gets *)

Lemma accepted_request (req : request) :
  accepted req = true ->
  exists d id,
    req = post (PDict d) /\ d !! "od_id" = Some id /\ truthy id = true.
Proof.
  destruct req as [[|] [data|]]; try discriminate.
  destruct data as [| | | | | |d]; try discriminate.
  unfold accepted; simpl. intros Ht.
  destruct (d !! "od_id") as [id|] eqn:Hd; [|discriminate].
  by exists d, id.
Qed.

Lemma sync_record_endpoint_unaccepted (e : env) (req : request) (w : world) :
  accepted req = false ->
  snd (sync_record_endpoint e req w) = w.
Proof.
  destruct req as [[|] [data|]]; try reflexivity.
  destruct data as [| | | | | |d]; try reflexivity.
  unfold accepted; simpl. intros Ht.
  change (Request true (Some (PDict d))) with (post (PDict d)).
  by rewrite sync_record_endpoint_rejects.
Qed.

Lemma update_postgres_record_open_connections
    (e : env) (id sf_data : pyval) (w : world) :
  open_connections (snd (update_postgres_record e id sf_data w)) =
  open_connections w.
Proof.
  destruct (values_to_update id sf_data) as [values | ex] eqn:Hv.
  - destruct (pg_connect e) as [ex|] eqn:Hc.
    + by rewrite (update_postgres_record_connect_fails e id sf_data values w ex).
    + destruct (fault_in_transaction e values) as [ex|] eqn:Hf.
      * by rewrite (update_postgres_record_fault e id sf_data values w ex).
      * by rewrite (update_postgres_record_commits e id sf_data values w).
  - by rewrite (update_postgres_record_mapper_raises e id sf_data w ex).
Qed.

Lemma fetch_salesforce_data_after (e : env) (id : pyval) (w : world) :
  exists calls,
    snd (fetch_salesforce_data e id w) = after w calls /\
    Forall (fun ev => is_pg_event ev = false) calls.
Proof.
  destruct (sf_login e) as [ex|] eqn:Hl.
  - rewrite (fetch_salesforce_data_login_fails e id w ex Hl).
    exists [SfLogin]. by repeat constructor.
  - rewrite (fetch_salesforce_data_queries e id w Hl).
    exists [SfLogin; SfQuery (soql_query (py_str e id))]. by repeat constructor.
Qed.

Lemma status_of_server_error (ex : exn) :
  server_error ex = (fst (server_error ex), 500%Z).
Proof.
  rewrite <- (server_error_status ex). by destruct (server_error ex).
Qed.

(** X1. A request that does not pass the checks (content type not JSON,
    body that does not parse, body that is not an object, [od_id] missing
    or false as a condition) leaves the world as it was: no call is
    issued. It is answered 400, except that a parsed body that is not an
    object makes the view raise [AttributeError]. *)
Theorem unaccepted_request_issues_no_call (e : env) (req : request) (w : world) :
  accepted req = false ->
  snd (sync_record_endpoint e req w) = w /\
  (http_status (fst (sync_record_endpoint e req w)) = 400%Z \/
   exists data,
     json req = Some data /\ (forall d, data <> PDict d) /\
     fst (sync_record_endpoint e req w) = Raise (no_attribute_get data)).
Proof.
  intros Ha. split; [by apply sync_record_endpoint_unaccepted|].
  destruct req as [[|] [data|]]; try (by left).
  destruct data as [| | | | | |d];
    try (right; eexists; split; [reflexivity|]; split; [discriminate|reflexivity]).
  left. unfold accepted in Ha; simpl in Ha.
  change (Request true (Some (PDict d))) with (post (PDict d)).
  by rewrite sync_record_endpoint_rejects.
Qed.

Lemma unaccepted_request_issues_no_call_witness :
  snd (sync_record_endpoint (Sample.services Sample.found)
         (Request false (Some (PDict Sample.body)))
         (Sample.start [Sample.blank Sample.a0B1])) =
    Sample.start [Sample.blank Sample.a0B1] /\
  fst (sync_record_endpoint (Sample.services Sample.found)
         (post (PList [Sample.a0B1])) (Sample.start [])) =
    Raise (Exn AttributeError "'list' object has no attribute 'get'").
Proof.
  split.
  - exact (proj1 (unaccepted_request_issues_no_call
      (Sample.services Sample.found) (Request false (Some (PDict Sample.body)))
      (Sample.start [Sample.blank Sample.a0B1]) eq_refl)).
  - destruct (proj2 (unaccepted_request_issues_no_call
      (Sample.services Sample.found) (post (PList [Sample.a0B1]))
      (Sample.start []) eq_refl)) as [H | (data & Hd & _ & Hr)].
    + discriminate H.
    + injection Hd as <-. exact Hr.
Defined.

(** X2. Whatever the services do, a request whose body is an object is
    answered: the view returns a body and one of the statuses 200, 400,
    404 and 500, and raises nothing. *)
Theorem object_body_is_always_answered
    (e : env) (d : gmap string pyval) (w : world) :
  exists body status,
    fst (sync_record_endpoint e (post (PDict d)) w) = Ok (body, status) /\
    status ∈ statuses.
Proof.
  assert (forall status, In status [200; 400; 404; 500]%Z -> status ∈ statuses)
    as Hin by (intros status H; by apply list_elem_of_In).
  destruct (truthy (default PNone (d !! "od_id"))) eqn:Ht.
  2:{ rewrite (sync_record_endpoint_rejects e d w Ht).
      eexists _, _. split; [reflexivity|]. apply Hin. simpl. auto. }
  destruct (d !! "od_id") as [id|] eqn:Hd; [|discriminate]. simpl in Ht.
  rewrite (sync_record_endpoint_accepts e d id w Hd Ht).
  destruct (fetch_salesforce_data e id w) as [[sf_record_data | ex] w1].
  - destruct (truthy sf_record_data).
    + destruct (update_postgres_record e id sf_record_data w1) as [[n | ex] w2].
      * destruct (n >? 0)%Z; eexists _, _; (split; [reflexivity|]);
          apply Hin; simpl; auto.
      * rewrite status_of_server_error. eexists _, _. split; [reflexivity|].
        apply Hin; simpl; auto.
    + eexists _, _. split; [reflexivity|]. apply Hin; simpl; auto.
  - rewrite status_of_server_error. eexists _, _. split; [reflexivity|].
    apply Hin; simpl; auto.
Qed.

(** X3. Whatever the request and the services, the number of open
    connections is after the view what it was before: the connection a
    request opens is closed before the response. *)
Theorem view_leaves_no_connection_open (e : env) (req : request) (w : world) :
  open_connections (snd (sync_record_endpoint e req w)) = open_connections w.
Proof.
  destruct (accepted req) eqn:Ha;
    [|by rewrite (sync_record_endpoint_unaccepted e req w Ha)].
  destruct (accepted_request req Ha) as (d & id & -> & Hd & Ht).
  rewrite (sync_record_endpoint_accepts e d id w Hd Ht).
  destruct (fetch_salesforce_data_after e id w) as (calls & Hw1 & _).
  destruct (fetch_salesforce_data e id w) as [[sf_record_data | ex] w1];
    simpl in Hw1; subst w1; [|reflexivity].
  destruct (truthy sf_record_data); [|reflexivity].
  pose proof (update_postgres_record_open_connections e id sf_record_data
                (after w calls)) as Hu.
  destruct (update_postgres_record e id sf_record_data (after w calls))
    as [[n | ex] w2]; exact Hu.
Qed.

(** *** What a request does to the table *)

Lemma rowcount_nonnegative (e : env) (values : params) (table : list row) :
  (0 <= rowcount e values table)%Z.
Proof. unfold rowcount. lia. Qed.

Lemma run_update_none_selected (e : env) (values : params) (table : list row) :
  rowcount e values table = 0%Z ->
  run_update e values table = table.
Proof.
  unfold rowcount. induction table as [|r table IH]; [reflexivity|].
  rewrite run_update_cons, filter_cons.
  destruct (selected e values r) eqn:Hsel.
  - destruct (decide (true = true)); [|done]. cbn [length]. lia.
  - destruct (decide (false = true)); [done|]. intros H. by rewrite IH.
Qed.

Lemma run_update_lookup
    (e : env) (values : params) (table : list row) (i : nat) (r : row) :
  table !! i = Some r ->
  run_update e values table !! i =
    Some (if selected e values r then set_columns (pg_now e) values r else r).
Proof.
  intros H. unfold run_update. by rewrite list_lookup_fmap, H.
Qed.

(** What the updater does to the committed table when no transaction was
    pending: nothing, unless it returns a positive count. *)
Lemma update_postgres_record_table
    (e : env) (id sf_data : pyval) (w : world) :
  uncommitted w = None ->
  uncommitted (snd (update_postgres_record e id sf_data w)) = None /\
  match fst (update_postgres_record e id sf_data w) with
  | Ok n => (n >? 0)%Z = false ->
            od_data (snd (update_postgres_record e id sf_data w)) = od_data w
  | Raise _ => od_data (snd (update_postgres_record e id sf_data w)) = od_data w
  end.
Proof.
  intros Hu.
  destruct (values_to_update id sf_data) as [values | ex] eqn:Hv.
  - destruct (pg_connect e) as [ex|] eqn:Hc.
    + by rewrite (update_postgres_record_connect_fails e id sf_data values w ex).
    + destruct (fault_in_transaction e values) as [ex|] eqn:Hf.
      * by rewrite (update_postgres_record_fault e id sf_data values w ex).
      * rewrite (update_postgres_record_commits e id sf_data values w Hv Hc Hf).
        split; [reflexivity|]. cbn [fst snd od_data].
        unfold visible; rewrite Hu; simpl. intros Hn.
        apply run_update_none_selected.
        pose proof (rowcount_nonnegative e values (od_data w)).
        rewrite Z.gtb_ltb in Hn. apply Z.ltb_ge in Hn. lia.
  - by rewrite (update_postgres_record_mapper_raises e id sf_data w ex).
Qed.

(** X4. With no transaction pending, a request that is not answered 200
    leaves the committed table as it was and leaves nothing uncommitted:
    only a 200 response goes with a change of [od_data]. *)
Theorem only_a_200_changes_the_table (e : env) (req : request) (w : world) :
  uncommitted w = None ->
  http_status (fst (sync_record_endpoint e req w)) <> 200%Z ->
  od_data (snd (sync_record_endpoint e req w)) = od_data w /\
  uncommitted (snd (sync_record_endpoint e req w)) = None.
Proof.
  intros Hu.
  destruct (accepted req) eqn:Ha;
    [|by rewrite (sync_record_endpoint_unaccepted e req w Ha)].
  destruct (accepted_request req Ha) as (d & id & -> & Hd & Ht).
  rewrite (sync_record_endpoint_accepts e d id w Hd Ht).
  destruct (fetch_salesforce_data_after e id w) as (calls & Hw1 & _).
  destruct (fetch_salesforce_data e id w) as [[sf_record_data | ex] w1];
    simpl in Hw1; subst w1; [|done].
  destruct (truthy sf_record_data); [|done].
  destruct (update_postgres_record_table e id sf_record_data (after w calls) Hu)
    as [Hnone Htable].
  destruct (update_postgres_record e id sf_record_data (after w calls))
    as [[n | ex] w2]; simpl in *; [|done].
  destruct (n >? 0)%Z; simpl; [done|]. intros _. split; [by apply Htable|done].
Qed.

Lemma only_a_200_changes_the_table_witness :
  od_data (snd (sync_record_endpoint Sample.failing_execute
                  (post (PDict Sample.body))
                  (Sample.start [Sample.blank Sample.a0B1]))) =
    [Sample.blank Sample.a0B1].
Proof.
  exact (proj1 (only_a_200_changes_the_table Sample.failing_execute
    (post (PDict Sample.body)) (Sample.start [Sample.blank Sample.a0B1])
    eq_refl ltac:(vm_compute; discriminate))).
Defined.

(** X5. When the view answers 200, the mapper made its values from the
    first record of the query's answer, and the committed table is the one
    the transaction saw with, at each place, a row that carried the ID now
    holding these values in its nine mapped columns and the server's time
    in [updated_at], its [od_id] as before, and any other row as it was. *)
Theorem a_200_writes_the_mapped_values
    (e : env) (d : gmap string pyval) (id body : pyval) (w w1 : world) :
  d !! "od_id" = Some id ->
  sync_record_endpoint e (post (PDict d)) w = (Ok (body, 200%Z), w1) ->
  exists sf_record_data values,
    fetched (sf_query e (soql_query (py_str e id))) = Ok sf_record_data /\
    values_to_update id sf_record_data = Ok values /\
    length (od_data w1) = length (visible w) /\
    forall i r, visible w !! i = Some r ->
      if pg_equal e (OdData.od_id r) id then
        exists r',
          od_data w1 !! i = Some r' /\
          OdData.od_id r' = OdData.od_id r /\
          mapped_columns r' = set_values values /\
          OdData.updated_at r' = pg_now e
      else od_data w1 !! i = Some r.
Proof.
  intros Hd H.
  destruct (sync_record_endpoint_200 e d id body w w1 Hd H)
    as (sf_record_data & values & Ht & Hl & Hq & Hr & Hv & Hc & Hf & Hn).
  rewrite (sync_record_endpoint_succeeds e d id sf_record_data values w
             Hd Ht Hl Hq Hr Hv Hc Hf) in H.
  injection H as _ <-. cbn [od_data].
  exists sf_record_data, values.
  split; [exact Hq|]. split; [exact Hv|].
  split; [unfold run_update; by rewrite length_map|].
  intros i r Hi. rewrite (run_update_lookup e values _ i r Hi).
  unfold selected.
  rewrite (where_value_of_values_to_update id sf_record_data values Hv).
  destruct (pg_equal e (OdData.od_id r) id); [|reflexivity].
  eexists. split; [reflexivity|].
  destruct values as [[[[[[[[[? ?] ?] ?] ?] ?] ?] ?] ?] ?]. by repeat split.
Qed.

Lemma a_200_writes_the_mapped_values_witness :
  exists sf_record_data values,
    values_to_update Sample.a0B1 sf_record_data = Ok values /\
    set_values values =
      [PStr "a0J7"; PStr "0035"; PStr "0019"; PStr "resume"; PStr "Ada";
       PNone; PNone; PNone; PNone] /\
    length (od_data (snd (sync_record_endpoint
      (Sample.services (SfResult 1 [PDict Sample.related_fields]))
      (post (PDict Sample.body))
      (Sample.start [Sample.blank Sample.a0B1])))) = 1.
Proof.
  destruct (a_200_writes_the_mapped_values
    (Sample.services (SfResult 1 [PDict Sample.related_fields]))
    Sample.body Sample.a0B1
    (fst (synchronized
            (Sample.services (SfResult 1 [PDict Sample.related_fields]))
            Sample.a0B1 1))
    (Sample.start [Sample.blank Sample.a0B1])
    (snd (sync_record_endpoint
            (Sample.services (SfResult 1 [PDict Sample.related_fields]))
            (post (PDict Sample.body))
            (Sample.start [Sample.blank Sample.a0B1])))
    eq_refl ltac:(vm_compute; reflexivity))
    as (sf_record_data & values & Hq & Hv & Hlen & _).
  exists sf_record_data, values. split; [exact Hv|]. split; [|exact Hlen].
  injection Hq as <-. vm_compute in Hv. injection Hv as <-. reflexivity.
Defined.


(** *** Failures of the CRM *)

(** X7. When the login raises the authentication failure, the view
    answers 500 with a fixed message that does not carry the text of the
    exception; the login is the only call issued, so the query is not sent
    and the database is not touched. *)
Theorem authentication_failure_returns_500
    (e : env) (d : gmap string pyval) (id : pyval) (w : world) (ex : exn) :
  d !! "od_id" = Some id ->
  truthy id = true ->
  sf_login e = Some ex ->
  is_auth_failed ex = true ->
  sync_record_endpoint e (post (PDict d)) w =
    (Ok (jsonify
           [("error",
             PStr "Salesforce authentication failed. Check credentials.")],
         500%Z),
     after w [SfLogin]).
Proof.
  intros Hd Ht Hl Ha.
  rewrite (sync_record_endpoint_accepts e d id w Hd Ht).
  rewrite (fetch_salesforce_data_login_fails e id w ex Hl).
  unfold server_error. by rewrite Ha.
Qed.

Lemma authentication_failure_returns_500_witness :
  sync_record_endpoint Sample.rejected_login (post (PDict Sample.body))
    (Sample.start [Sample.blank Sample.a0B1]) =
    (Ok (jsonify
           [("error",
             PStr "Salesforce authentication failed. Check credentials.")],
         500%Z),
     after (Sample.start [Sample.blank Sample.a0B1]) [SfLogin]).
Proof.
  exact (authentication_failure_returns_500 Sample.rejected_login Sample.body
    Sample.a0B1 (Sample.start [Sample.blank Sample.a0B1])
    (Exn SalesforceAuthenticationFailed "INVALID_LOGIN")
    eq_refl eq_refl eq_refl eq_refl).
Defined.

(** X8. When the query raises an exception other than resource-not-found,
    the view answers 500; the calls issued are the login and the query, so
    the database is not touched. For an exception that is neither the
    authentication failure nor a database error the body carries the text
    of the exception after "An unexpected error occurred: ". *)
Theorem query_failure_returns_500
    (e : env) (d : gmap string pyval) (id : pyval) (w : world) (ex : exn) :
  d !! "od_id" = Some id ->
  truthy id = true ->
  sf_login e = None ->
  sf_query e (soql_query (py_str e id)) = SfRaises ex ->
  is_resource_not_found ex = false ->
  exists body,
    sync_record_endpoint e (post (PDict d)) w =
      (Ok (body, 500%Z),
       after w [SfLogin; SfQuery (soql_query (py_str e id))]) /\
    (is_auth_failed ex = false -> is_psycopg2_error ex = false ->
     body = jsonify
              [("error",
                PStr ("An unexpected error occurred: " +:+ exn_msg ex))]).
Proof.
  intros Hd Ht Hl Hq Hnf.
  exists (fst (server_error ex)).
  rewrite (sync_record_endpoint_accepts e d id w Hd Ht).
  rewrite (fetch_salesforce_data_queries e id w Hl), Hq.
  unfold fetched. rewrite Hnf.
  split; [by rewrite <- status_of_server_error|].
  intros Ha Hp. unfold server_error. by rewrite Ha, Hp.
Qed.

Lemma query_failure_returns_500_witness :
  exists body,
    sync_record_endpoint Sample.failing_query (post (PDict Sample.body))
      (Sample.start []) =
      (Ok (body, 500%Z),
       after (Sample.start [])
         [SfLogin; SfQuery (soql_query "a0B1")]) /\
    body = jsonify
             [("error", PStr "An unexpected error occurred: MALFORMED_QUERY")].
Proof.
  destruct (query_failure_returns_500 Sample.failing_query Sample.body
    Sample.a0B1 (Sample.start []) (Exn OtherException "MALFORMED_QUERY")
    eq_refl eq_refl eq_refl eq_refl eq_refl) as (body & H & Hbody).
  exists body. split; [exact H | exact (Hbody eq_refl eq_refl)].
Defined.

(** X9. When the answer counts records but lists none, taking the first
    record raises [IndexError]; the view answers 500 with the text of that
    exception and the database is not touched. *)
Theorem counted_but_empty_answer_returns_500
    (e : env) (d : gmap string pyval) (id : pyval) (w : world) (n : Z) :
  d !! "od_id" = Some id ->
  truthy id = true ->
  sf_login e = None ->
  sf_query e (soql_query (py_str e id)) = SfResult n [] ->
  (0 < n)%Z ->
  sync_record_endpoint e (post (PDict d)) w =
    (Ok (jsonify
           [("error",
             PStr "An unexpected error occurred: list index out of range")],
         500%Z),
     after w [SfLogin; SfQuery (soql_query (py_str e id))]).
Proof.
  intros Hd Ht Hl Hq Hn.
  rewrite (sync_record_endpoint_accepts e d id w Hd Ht).
  rewrite (fetch_salesforce_data_queries e id w Hl), Hq.
  unfold fetched. apply Z.gtb_lt in Hn. by rewrite Hn.
Qed.

Lemma counted_but_empty_answer_returns_500_witness :
  sync_record_endpoint (Sample.services (SfResult 3 []))
    (post (PDict Sample.body)) (Sample.start []) =
    (Ok (jsonify
           [("error",
             PStr "An unexpected error occurred: list index out of range")],
         500%Z),
     after (Sample.start []) [SfLogin; SfQuery (soql_query "a0B1")]).
Proof.
  exact (counted_but_empty_answer_returns_500 (Sample.services (SfResult 3 []))
    Sample.body Sample.a0B1 (Sample.start []) 3
    eq_refl eq_refl eq_refl eq_refl eq_refl).
Defined.

(** X10. When the first record of the answer is false as a condition, an
    empty object for one, the view treats it as no record: it answers 404
    with the no-data message and does not touch the database. *)
Theorem falsy_record_returns_404
    (e : env) (d : gmap string pyval) (id sf_record_data : pyval)
    (w : world) (n : Z) (records : list pyval) :
  d !! "od_id" = Some id ->
  truthy id = true ->
  sf_login e = None ->
  sf_query e (soql_query (py_str e id)) = SfResult n (sf_record_data :: records) ->
  (0 < n)%Z ->
  truthy sf_record_data = false ->
  sync_record_endpoint e (post (PDict d)) w =
    (Ok (no_data_found e id),
     after w [SfLogin; SfQuery (soql_query (py_str e id))]).
Proof.
  intros Hd Ht Hl Hq Hn Hr.
  rewrite (sync_record_endpoint_accepts e d id w Hd Ht).
  rewrite (fetch_salesforce_data_queries e id w Hl), Hq.
  unfold fetched. apply Z.gtb_lt in Hn. by rewrite Hn, Hr.
Qed.

Lemma falsy_record_returns_404_witness :
  sync_record_endpoint (Sample.services (SfResult 1 [PDict ∅]))
    (post (PDict Sample.body)) (Sample.start [Sample.blank Sample.a0B1]) =
    (Ok (no_data_found (Sample.services (SfResult 1 [PDict ∅])) Sample.a0B1),
     after (Sample.start [Sample.blank Sample.a0B1])
       [SfLogin; SfQuery (soql_query "a0B1")]).
Proof.
  exact (falsy_record_returns_404 (Sample.services (SfResult 1 [PDict ∅]))
    Sample.body Sample.a0B1 (PDict ∅) (Sample.start [Sample.blank Sample.a0B1])
    1 [] eq_refl eq_refl eq_refl eq_refl eq_refl eq_refl).
Defined.

(** X11. Whatever the login and the query do, the client touches neither
    the table nor the connections, and it makes one attempt: its calls are
    the login alone when the login raises, the login and one query
    otherwise. *)
Theorem client_only_calls_the_crm (e : env) (id : pyval) (w : world) :
  od_data (snd (fetch_salesforce_data e id w)) = od_data w /\
  uncommitted (snd (fetch_salesforce_data e id w)) = uncommitted w /\
  open_connections (snd (fetch_salesforce_data e id w)) = open_connections w /\
  (trace (snd (fetch_salesforce_data e id w)) = trace w ++ [SfLogin] /\
   (exists ex, sf_login e = Some ex) \/
   trace (snd (fetch_salesforce_data e id w)) =
     trace w ++ [SfLogin; SfQuery (soql_query (py_str e id))] /\
   sf_login e = None).
Proof.
  destruct (sf_login e) as [ex|] eqn:Hl.
  - rewrite (fetch_salesforce_data_login_fails e id w ex Hl).
    repeat split. left. split; [reflexivity | by exists ex].
  - rewrite (fetch_salesforce_data_queries e id w Hl).
    repeat split. by right.
Qed.

(** *** Failures of the database *)

Lemma database_error_is_not_auth_failure (ex : exn) :
  is_psycopg2_error ex = true -> is_auth_failed ex = false.
Proof.
  unfold is_psycopg2_error, is_auth_failed. by destruct (exn_cls ex).
Qed.

(** X12. When the record is found and mapped and a database error is
    raised, by [connect] or by a call inside the transaction, the view
    answers 500 with the text of the error after "Database operation
    failed: ", and the committed table is as it was. *)
Theorem database_error_returns_500
    (e : env) (d : gmap string pyval) (id sf_record_data : pyval)
    (values : params) (w w1 : world) (ex : exn) :
  d !! "od_id" = Some id ->
  truthy id = true ->
  fetch_salesforce_data e id w = (Ok sf_record_data, w1) ->
  truthy sf_record_data = true ->
  values_to_update id sf_record_data = Ok values ->
  pg_connect e = Some ex \/
    (pg_connect e = None /\ fault_in_transaction e values = Some ex) ->
  is_psycopg2_error ex = true ->
  fst (sync_record_endpoint e (post (PDict d)) w) =
    Ok (jsonify
          [("error", PStr ("Database operation failed: " +:+ exn_msg ex))],
        500%Z) /\
  od_data (snd (sync_record_endpoint e (post (PDict d)) w)) = od_data w.
Proof.
  intros Hd Ht Hfetch Hr Hv Hfault Hdb.
  rewrite (sync_record_endpoint_accepts e d id w Hd Ht).
  destruct (fetch_salesforce_data_after e id w) as (calls & Hw1 & _).
  rewrite Hfetch in *. simpl in Hw1. subst w1. rewrite Hr.
  assert (server_error ex =
          (jsonify
             [("error", PStr ("Database operation failed: " +:+ exn_msg ex))],
           500%Z)) as Hresponse.
  { unfold server_error.
    by rewrite (database_error_is_not_auth_failure ex Hdb), Hdb. }
  destruct Hfault as [Hc | [Hc Hf]].
  - rewrite (update_postgres_record_connect_fails e id _ values _ ex Hv Hc).
    by rewrite Hresponse.
  - rewrite (update_postgres_record_fault e id _ values _ ex Hv Hc Hf).
    by rewrite Hresponse.
Qed.

Lemma database_error_returns_500_witness :
  fst (sync_record_endpoint Sample.no_database (post (PDict Sample.body))
         (Sample.start [Sample.blank Sample.a0B1])) =
    Ok (jsonify
          [("error",
            PStr "Database operation failed: could not connect to server")],
        500%Z) /\
  od_data (snd (sync_record_endpoint Sample.no_database
                  (post (PDict Sample.body))
                  (Sample.start [Sample.blank Sample.a0B1]))) =
    [Sample.blank Sample.a0B1].
Proof.
  exact (database_error_returns_500 Sample.no_database Sample.body Sample.a0B1
    Sample.record
    (PNone, PNone, PNone, PNone, PNone, PNone, PNone, PNone, PNone, Sample.a0B1)
    (Sample.start [Sample.blank Sample.a0B1])
    (snd (fetch_salesforce_data Sample.no_database Sample.a0B1
            (Sample.start [Sample.blank Sample.a0B1])))
    (Exn Psycopg2Error "could not connect to server")
    eq_refl eq_refl eq_refl eq_refl eq_refl (or_introl eq_refl) eq_refl).
Defined.

(** X13. When a call inside the transaction raises an exception that is
    not a database error, the updater issues no [rollback]: its calls are
    the ones attempted, then [close]. The same exception is raised, and
    the committed table is as it was, as what was written is lost with the
    connection. *)
Theorem other_exception_skips_rollback
    (e : env) (id sf_data : pyval) (values : params) (w : world) (ex : exn) :
  values_to_update id sf_data = Ok values ->
  pg_connect e = None ->
  fault_in_transaction e values = Some ex ->
  is_psycopg2_error ex = false ->
  update_postgres_record e id sf_data w =
    (Raise ex,
     World (od_data w) None (open_connections w)
           (trace w ++ attempted e values ++ [PgClose])) /\
  PgRollback ∉ attempted e values ++ [PgClose].
Proof.
  intros Hv Hc Hf Hdb.
  rewrite (update_postgres_record_fault e id sf_data values w ex Hv Hc Hf), Hdb.
  split; [reflexivity|].
  unfold attempted.
  destruct (pg_cursor e); [|destruct (pg_execute e update_query values)];
    simpl; rewrite ?not_elem_of_cons; repeat split; try discriminate;
    apply not_elem_of_nil.
Qed.

Lemma other_exception_skips_rollback_witness :
  update_postgres_record Sample.interrupted_execute Sample.a0B1 Sample.record
    (Sample.start [Sample.blank Sample.a0B1]) =
    (Raise (Exn OtherException "interrupted"),
     World [Sample.blank Sample.a0B1] None 0
       [PgConnect; PgCursor;
        PgExecute update_query
          (PNone, PNone, PNone, PNone, PNone,
           PNone, PNone, PNone, PNone, Sample.a0B1);
        PgClose]).
Proof.
  exact (proj1 (other_exception_skips_rollback Sample.interrupted_execute
    Sample.a0B1 Sample.record
    (PNone, PNone, PNone, PNone, PNone, PNone, PNone, PNone, PNone, Sample.a0B1)
    (Sample.start [Sample.blank Sample.a0B1])
    (Exn OtherException "interrupted") eq_refl eq_refl eq_refl eq_refl)).
Defined.

(** *** The mapper on any record *)

Lemma related_readable (d : gmap string pyval) (relation field : string) :
  readable (default PNone (d !! relation)) = true ->
  related (PDict d) relation field =
    Ok (field_of (default PNone (d !! relation)) field).
Proof.
  unfold related, readable, field_of, get, get_or; simpl.
  destruct (d !! relation) as [v|]; simpl; [|reflexivity].
  destruct (truthy v) eqn:Hv; simpl; [|by destruct v].
  destruct v; try discriminate. reflexivity.
Qed.

Lemma related_unreadable (d : gmap string pyval) (relation field : string) :
  readable (default PNone (d !! relation)) = false ->
  related (PDict d) relation field =
    Raise (no_attribute_get (default PNone (d !! relation))).
Proof.
  unfold related, readable, get, get_or; simpl.
  destruct (d !! relation) as [v|]; simpl; [|discriminate].
  destruct (truthy v) eqn:Hv; simpl; [|discriminate].
  by destruct v.
Qed.

(** X14. For a record whose two relations are each false as a condition
    or an object, the mapper raises nothing: the first value is the [Id]
    of the job, the next four are [Id], [AccountId],
    [Candidate_s_Resume_TXT__c] and [FirstName] of the candidate, each null
    when the relation is false as a condition or lacks the field; the four
    transcript values are read under the lower-case keys; the last is the
    ID. *)
Theorem mapper_reads_readable_relations (id : pyval) (d : gmap string pyval) :
  readable (default PNone (d !! "TR1__Job__r")) = true ->
  readable (default PNone (d !! "TR1__Candidate__r")) = true ->
  values_to_update id (PDict d) =
    Ok (field_of (default PNone (d !! "TR1__Job__r")) "Id",
        field_of (default PNone (d !! "TR1__Candidate__r")) "Id",
        field_of (default PNone (d !! "TR1__Candidate__r")) "AccountId",
        field_of (default PNone (d !! "TR1__Candidate__r"))
                 "Candidate_s_Resume_TXT__c",
        field_of (default PNone (d !! "TR1__Candidate__r")) "FirstName",
        default PNone (d !! "screening_transcript_c"),
        default PNone (d !! "internal_interview_transcript_c"),
        default PNone (d !! "x1st_interview_transcript_c"),
        default PNone (d !! "x2nd_interview_transcript_c"),
        id).
Proof.
  intros Hj Hc. unfold values_to_update.
  rewrite (related_readable d "TR1__Job__r" "Id" Hj).
  by rewrite !(related_readable d "TR1__Candidate__r" _ Hc).
Qed.

Lemma mapper_reads_readable_relations_witness :
  values_to_update Sample.a0B1 (PDict Sample.related_fields) =
    Ok (PStr "a0J7", PStr "0035", PStr "0019", PStr "resume", PStr "Ada",
        PNone, PNone, PNone, PNone, Sample.a0B1).
Proof.
  exact (mapper_reads_readable_relations Sample.a0B1 Sample.related_fields
           eq_refl eq_refl).
Defined.

(** X15. For a record with a relation that is true as a condition and not
    an object, the mapper raises [AttributeError], and the updater raises
    it before any call: no connection is opened. The job relation is read
    first. *)
Theorem unreadable_relation_raises_before_connecting
    (e : env) (id : pyval) (d : gmap string pyval) (w : world) :
  readable (default PNone (d !! "TR1__Job__r")) = false \/
    readable (default PNone (d !! "TR1__Candidate__r")) = false ->
  exists relation,
    update_postgres_record e id (PDict d) w =
      (Raise (no_attribute_get relation), w) /\
    (readable (default PNone (d !! "TR1__Job__r")) = false ->
     relation = default PNone (d !! "TR1__Job__r")) /\
    (readable (default PNone (d !! "TR1__Job__r")) = true ->
     relation = default PNone (d !! "TR1__Candidate__r")).
Proof.
  intros H.
  destruct (readable (default PNone (d !! "TR1__Job__r"))) eqn:Hj.
  - destruct H as [H | Hc]; [discriminate|].
    exists (default PNone (d !! "TR1__Candidate__r")).
    split; [|by split].
    apply update_postgres_record_mapper_raises. unfold values_to_update.
    rewrite (related_readable d "TR1__Job__r" "Id" Hj).
    by rewrite (related_unreadable d "TR1__Candidate__r" "Id" Hc).
  - exists (default PNone (d !! "TR1__Job__r")).
    split; [|by split].
    apply update_postgres_record_mapper_raises. unfold values_to_update.
    by rewrite (related_unreadable d "TR1__Job__r" "Id" Hj).
Qed.

Lemma unreadable_relation_raises_before_connecting_witness :
  update_postgres_record (Sample.services Sample.found) Sample.a0B1
    (PDict Sample.unreadable_fields) (Sample.start []) =
    (Raise (Exn AttributeError "'str' object has no attribute 'get'"),
     Sample.start []).
Proof.
  destruct (unreadable_relation_raises_before_connecting
    (Sample.services Sample.found) Sample.a0B1 Sample.unreadable_fields
    (Sample.start []) (or_introl eq_refl)) as (relation & H & Hjob & _).
  rewrite (Hjob eq_refl) in H. exact H.
Defined.

Lemma transcripts_read_as_null_witness :
  exists job_id candidate_id account_id resume_txt firstname,
    (PStr "a0J7", PStr "0035", PStr "0019", PStr "resume", PStr "Ada",
     PNone, PNone, PNone, PNone, Sample.a0B1) =
    (job_id, candidate_id, account_id, resume_txt, firstname,
     PNone, PNone, PNone, PNone, Sample.a0B1).
Proof.
  exact (transcripts_read_as_null Sample.a0B1 Sample.related_fields
    (PStr "a0J7", PStr "0035", PStr "0019", PStr "resume", PStr "Ada",
     PNone, PNone, PNone, PNone, Sample.a0B1)
    ltac:(apply (bool_decide_unpack (dom Sample.related_fields ⊆ record_keys));
          vm_compute; exact I)
    eq_refl).
Defined.

(** *** The statements sent to the database *)

Ltac only_the_update Hin :=
  repeat rewrite elem_of_cons in Hin; rewrite elem_of_nil in Hin;
  repeat match type of Hin with
  | _ \/ _ => destruct Hin as [Hin | Hin]
  end;
  try discriminate Hin; try contradiction;
  by injection Hin as -> _.

Lemma update_postgres_record_statements
    (e : env) (id sf_data : pyval) (w : world) :
  exists calls,
    trace (snd (update_postgres_record e id sf_data w)) = trace w ++ calls /\
    length (filter (fun ev => is_execute ev = true) calls) <= 1 /\
    forall query values, PgExecute query values ∈ calls -> query = update_query.
Proof.
  destruct (values_to_update id sf_data) as [values | ex] eqn:Hv.
  2:{ rewrite (update_postgres_record_mapper_raises e id sf_data w ex Hv).
      exists []. simpl. rewrite app_nil_r.
      split; [reflexivity|]. split; [vm_compute; lia|].
      intros query values Hin. by apply elem_of_nil in Hin. }
  destruct (pg_connect e) as [ex|] eqn:Hc.
  { rewrite (update_postgres_record_connect_fails e id sf_data values w ex Hv Hc).
    exists [PgConnect]. split; [reflexivity|]. split; [vm_compute; lia|].
    intros query values' Hin. only_the_update Hin. }
  destruct (fault_in_transaction e values) as [ex|] eqn:Hf.
  - rewrite (update_postgres_record_fault e id sf_data values w ex Hv Hc Hf).
    eexists. split; [reflexivity|]. unfold attempted.
    destruct (pg_cursor e); [|destruct (pg_execute e update_query values)];
      destruct (is_psycopg2_error ex); (split; [vm_compute; lia|]);
      intros query values' Hin; simpl in Hin; only_the_update Hin.
  - rewrite (update_postgres_record_commits e id sf_data values w Hv Hc Hf).
    eexists. split; [reflexivity|]. split; [vm_compute; lia|].
    intros query values' Hin. only_the_update Hin.
Qed.

(** X16. Whatever the request and the services, the view executes at most
    one statement, and a statement it executes is the UPDATE of
    [update_query]: the ID and the record reach the database as bound
    values only. *)
Theorem view_executes_at_most_the_update (e : env) (req : request) (w : world) :
  exists calls,
    trace (snd (sync_record_endpoint e req w)) = trace w ++ calls /\
    length (filter (fun ev => is_execute ev = true) calls) <= 1 /\
    forall query values, PgExecute query values ∈ calls -> query = update_query.
Proof.
  assert (forall calls : list event,
            Forall (fun ev => is_pg_event ev = false) calls ->
            filter (fun ev => is_execute ev = true) calls = [] /\
            forall query values, PgExecute query values ∉ calls) as Hcrm.
  { intros calls Hcalls. induction Hcalls as [|ev calls Hev _ [IH1 IH2]].
    - split; [reflexivity|]. intros query values. apply not_elem_of_nil.
    - split.
      + rewrite filter_cons, IH1. by destruct ev.
      + intros query values. rewrite not_elem_of_cons. split; [|apply IH2].
        by destruct ev. }
  destruct (accepted req) eqn:Ha.
  2:{ rewrite (sync_record_endpoint_unaccepted e req w Ha).
      exists []. rewrite app_nil_r.
      split; [reflexivity|]. split; [vm_compute; lia|].
      intros query values Hin. by apply elem_of_nil in Hin. }
  destruct (accepted_request req Ha) as (d & id & -> & Hd & Ht).
  rewrite (sync_record_endpoint_accepts e d id w Hd Ht).
  destruct (fetch_salesforce_data_after e id w) as (calls & Hw1 & Hcalls).
  destruct (Hcrm calls Hcalls) as [Hnone Hnot].
  assert (exists calls',
            trace (after w calls) = trace w ++ calls' /\
            length (filter (fun ev => is_execute ev = true) calls') <= 1 /\
            forall query values,
              PgExecute query values ∈ calls' -> query = update_query)
    as Hstop.
  { exists calls. split; [reflexivity|]. rewrite Hnone. split; [vm_compute; lia|].
    intros query values Hin. by apply Hnot in Hin. }
  destruct (fetch_salesforce_data e id w) as [[sf_record_data | ex] w1];
    simpl in Hw1; subst w1; [|exact Hstop].
  destruct (truthy sf_record_data); [|exact Hstop].
  destruct (update_postgres_record_statements e id sf_record_data (after w calls))
    as (calls' & Htrace & Hlen & Hquery).
  exists (calls ++ calls'). split; [|split].
  - destruct (update_postgres_record e id sf_record_data (after w calls))
      as [[n | ex] w2]; simpl in *; rewrite Htrace; by rewrite app_assoc.
  - rewrite filter_app, Hnone. exact Hlen.
  - intros query values Hin. apply elem_of_app in Hin as [Hin | Hin].
    + by apply Hnot in Hin.
    + by apply (Hquery query values).
Qed.

(** *** Rows and keys across a request *)



